(** * BatteryFlow Pro: the cell telemetry core of [cell_charge_discharge.py]

    A shallow embedding of the battery-cell logic of the dashboard script:
    the chemistry table [CELL_SPECS], the telemetry generator
    [generate_real_time_data], the safety evaluator [get_safety_warnings],
    the charge estimator [calculate_charge_percentage], the rolling
    real-time buffer kept by the Control Panel page and the safety score
    computed by the Analysis page.

    Numbers.  The script computes on Python floats.  They are embedded as
    exact rationals [Q]: every property below rests on comparisons, on the
    sign of a product and on the monotonicity of [+], [-], [*] and [/],
    never on a rounding error.  Integers ([len], the safety score) are [Z]
    and [nat].

    Randomness.  [random.uniform(a, b)] is [a + (b - a) * random()]; the
    generator is a state threaded through the calls, here a stream of the
    values [random()] will return together with a cursor.

    Pages.  Beside these functions the development follows the pages that
    call them: [configure_cell] and the save of the Setup page, the cell
    cards and the warning panel of the Dashboard, the buttons of the
    Control Panel and the mock history of the Analysis page.  Widgets are
    inputs: a page takes the values its widgets return.  The envelopes of
    the two generators are stated in exact arithmetic. *)

From Stdlib Require Import QArith Qabs Lqa ZArith Lia List String Bool Sorted.
From Stdlib Require DecimalString DecimalNat.
Import ListNotations.

Local Open Scope Q_scope.

(** ** Python primitives used by the script *)

(** Comparisons of two numbers, as booleans. *)
Definition Qltb (x y : Q) : bool := (Qnum x * QDen y <? Qnum y * QDen x)%Z.
Definition Qgtb (x y : Q) : bool := Qltb y x.
Definition Qleb (x y : Q) : bool := Qle_bool x y.
Definition Qgeb (x y : Q) : bool := Qle_bool y x.
Definition Qneb (x y : Q) : bool := negb (Qeq_bool x y).

(** [max(a, b)] keeps its first argument unless the second is strictly
    greater. *)
Definition py_max (a b : Q) : Q := if Qgtb b a then b else a.
Definition py_max_int (a b : Z) : Z := if (b >? a)%Z then b else a.

(** [l[i:]]: a negative start counts from the end and is clipped at the
    first element; a start past the end gives the empty list. *)
Definition slice_from {A : Type} (i : Z) (l : list A) : list A :=
  let n := Z.of_nat (List.length l) in
  let start := if (i <? 0)%Z then Z.max (n + i) 0 else Z.min i n in
  skipn (Z.to_nat start) l.

(** A dict with string keys, in insertion order. *)
Definition dict (V : Type) : Type := list (string * V).

Fixpoint dict_get {V : Type} (d : dict V) (k : string) : option V :=
  match d with
  | [] => None
  | (k', v) :: d' => if String.eqb k' k then Some v else dict_get d' k
  end.

(** ** The random generator *)

Record Rng : Type := mkRng { stream : nat -> Q; cursor : nat }.

Definition Rand (A : Type) : Type := Rng -> A * Rng.

Definition ret {A : Type} (a : A) : Rand A := fun g => (a, g).

Definition bind {A B : Type} (m : Rand A) (k : A -> Rand B) : Rand B :=
  fun g => let (a, g') := m g in k a g'.

Notation "x <- m ;; k" := (bind m (fun x => k))
  (at level 61, m at next level, right associativity).

(** [random.random()] *)
Definition random : Rand Q :=
  fun g => (stream g (cursor g), mkRng (stream g) (S (cursor g))).

(** [random.uniform(a, b)] *)
Definition uniform (a b : Q) : Rand Q :=
  u <- random ;; ret (a + (b - a) * u).

(** ** Data *)

Local Open Scope string_scope.
Local Open Scope list_scope.

Record CellSpec : Type := mkSpec
  { spec_nominal : Q; spec_min : Q; spec_max : Q; spec_color : string }.

Definition CELL_SPECS : dict CellSpec :=
  [ ("LFP", mkSpec 3.2 2.8 3.6 "#4CAF50");
    ("NMC", mkSpec 3.6 3.0 4.2 "#2196F3");
    ("LTO", mkSpec 2.4 1.8 2.8 "#FF9800") ].

(** [st.session_state.charging_status]; the generator's last branch takes
    every value that is not one of the first three. *)
Inductive ChargingStatus : Type := Idle | Charging | Discharging | Paused.

(** One entry of [st.session_state.cells_data], as [configure_cell] stores
    it.  The key ['type'] is read with [.get('type', 'LFP')]. *)
Record CellData : Type := mkCell
  { cd_type : option string;
    cd_voltage : Q;
    cd_current : Q;
    cd_temperature : Q;
    cd_time : Q;
    cd_capacity : Q }.

(** One data point of [generate_real_time_data]. *)
Record Sample : Type := mkSample
  { timestamp : Z;
    cell_id : string;
    cell_type : string;
    voltage : Q;
    current : Q;
    temperature : Q;
    capacity : Q }.

(** A warning is the pair (severity, message).  The message is kept as the
    f-string's template and its arguments. *)
Inductive Severity : Type := CRITICAL | WARNING.

Inductive Message : Type :=
| Overvoltage (v vmax : Q)
| Undervoltage (v vmin : Q)
| HighCurrent (a : Q)
| Overheating (t : Q)
| LowTemperature (t : Q).

Definition Warning : Type := (Severity * Message)%type.

(** [st.session_state] *)
Record Session : Type := mkSession
  { cells_data : dict CellData;
    charging_status : ChargingStatus;
    real_time_data : list Sample }.

(** ** [generate_real_time_data] *)

(** The body of the loop: the perturbed reading of one cell, then the data
    point built from it. *)
Definition perturb (status : ChargingStatus) (cell_data : CellData)
  : Rand (Q * Q * Q) :=
  let base_voltage := cd_voltage cell_data in
  let base_current := cd_current cell_data in
  let base_temp := cd_temperature cell_data in
  match status with
  | Charging =>
      r1 <- uniform 0.05 0.15 ;;
      r2 <- uniform (-0.5) 0.5 ;;
      r3 <- uniform 2 8 ;;
      ret (base_voltage + r1, Qabs base_current + r2, base_temp + r3)
  | Discharging =>
      r1 <- uniform 0.05 0.15 ;;
      r2 <- uniform (-0.5) 0.5 ;;
      r3 <- uniform 1 5 ;;
      ret (base_voltage - r1, - Qabs base_current + r2, base_temp + r3)
  | Paused =>
      r1 <- uniform (-0.02) 0.02 ;;
      r2 <- uniform (-0.1) 0.1 ;;
      r3 <- uniform (-1) 1 ;;
      ret (base_voltage + r1, r2, base_temp + r3)
  | Idle =>
      r1 <- uniform (-0.01) 0.01 ;;
      r3 <- uniform (-0.5) 0.5 ;;
      ret (base_voltage + r1, 0, base_temp + r3)
  end.

Definition data_point (current_time : Z) (cell_name : string)
    (cell_data : CellData) (reading : Q * Q * Q) : Sample :=
  let '(voltage, current, temperature) := reading in
  {| timestamp := current_time;
     cell_id := cell_name;
     cell_type := match cd_type cell_data with Some ty => ty | None => "LFP" end;
     voltage := py_max 0 voltage;
     current := current;
     temperature := temperature;
     capacity := if Qneb current 0 then Qabs (voltage * current) else 0 |}.

Fixpoint generate_loop (current_time : Z) (status : ChargingStatus)
    (items : dict CellData) (data_points : list Sample)
  : Rand (list Sample) :=
  match items with
  | [] => ret data_points
  | (cell_name, cell_data) :: rest =>
      reading <- perturb status cell_data ;;
      generate_loop current_time status rest
        (data_points ++ [data_point current_time cell_name cell_data reading])
  end.

Definition generate_real_time_data (current_time : Z) (ss : Session)
  : Rand (list Sample) :=
  generate_loop current_time (charging_status ss) (cells_data ss) [].

(** ** [get_safety_warnings]

    [None] stands for the [KeyError] of [CELL_SPECS[cell_type]]. *)
Definition get_safety_warnings (voltage current temperature : Q)
    (cell_type : string) : option (list Warning) :=
  match dict_get CELL_SPECS cell_type with
  | None => None
  | Some spec =>
      let warnings : list Warning := [] in
      let warnings :=
        if Qgtb voltage (spec_max spec)
        then warnings ++ [(CRITICAL, Overvoltage voltage (spec_max spec))]
        else if Qltb voltage (spec_min spec)
        then warnings ++ [(WARNING, Undervoltage voltage (spec_min spec))]
        else warnings in
      let warnings :=
        if Qgtb (Qabs current) 10
        then warnings ++ [(WARNING, HighCurrent (Qabs current))]
        else warnings in
      let warnings :=
        if Qgtb temperature 45
        then warnings ++ [(CRITICAL, Overheating temperature)]
        else if Qltb temperature 0
        then warnings ++ [(WARNING, LowTemperature temperature)]
        else warnings in
      Some warnings
  end.

(** ** [calculate_charge_percentage] *)
Definition calculate_charge_percentage (voltage : Q) (cell_type : string)
  : option Q :=
  match dict_get CELL_SPECS cell_type with
  | None => None
  | Some spec =>
      if Qleb voltage (spec_min spec) then Some 0
      else if Qgeb voltage (spec_max spec) then Some 100
      else Some ((voltage - spec_min spec) / (spec_max spec - spec_min spec) * 100)
  end.

(** ** The Control Panel page: the rolling real-time buffer *)

(** The block under "Real-time monitoring".  With no cell configured the
    page only shows a notice and the session is left as it is. *)
Definition real_time_monitoring (current_time : Z) (ss : Session)
  : Rand Session :=
  match cells_data ss with
  | [] => ret ss
  | _ :: _ =>
      current_data <- generate_real_time_data current_time ss ;;
      let extended := real_time_data ss ++ current_data in
      let bound := (60 * Z.of_nat (List.length (cells_data ss)))%Z in
      let kept :=
        if (Z.of_nat (List.length extended) >? bound)%Z
        then slice_from (- bound) extended
        else extended in
      ret {| cells_data := cells_data ss;
             charging_status := charging_status ss;
             real_time_data := kept |}
  end.

(** ** The Analysis page: the safety score *)

(** [max(0, 100 - len(warnings) * 25)], as a function of [len(warnings)]. *)
Definition safety_score (warning_count : nat) : Z :=
  py_max_int 0 (100 - Z.of_nat warning_count * 25).

Record SafetyRow : Type := mkRow
  { row_cell_id : string;
    row_timestamp : Z;
    row_safety_score : Z;
    row_warning_count : nat }.

Fixpoint safety_data (df : list Sample) : option (list SafetyRow) :=
  match df with
  | [] => Some []
  | row :: rows =>
      match get_safety_warnings (voltage row) (current row) (temperature row)
              (cell_type row) with
      | None => None
      | Some warnings =>
          match safety_data rows with
          | None => None
          | Some out =>
              Some ({| row_cell_id := cell_id row;
                       row_timestamp := timestamp row;
                       row_safety_score := safety_score (List.length warnings);
                       row_warning_count := List.length warnings |} :: out)
          end
      end
  end.

(** ** The session as the pages drive it

    The Setup page replaces [cells_data] by the freshly built dict when
    "Save Configuration" is pressed; the four buttons of the Control Panel
    set [charging_status]; each rendering of the Control Panel runs
    [real_time_monitoring]. *)
Inductive Event : Type :=
| SaveConfiguration (new_cells_data : dict CellData)
| StartCharging
| StartDischarging
| Pause
| Stop
| ControlPanel (current_time : Z).

Definition set_status (s : ChargingStatus) (ss : Session) : Session :=
  {| cells_data := cells_data ss;
     charging_status := s;
     real_time_data := real_time_data ss |}.

Definition handle (e : Event) (ss : Session) : Rand Session :=
  match e with
  | SaveConfiguration new_cells_data =>
      ret {| cells_data := new_cells_data;
             charging_status := charging_status ss;
             real_time_data := real_time_data ss |}
  | StartCharging => ret (set_status Charging ss)
  | StartDischarging => ret (set_status Discharging ss)
  | Pause => ret (set_status Paused ss)
  | Stop => ret (set_status Idle ss)
  | ControlPanel current_time => real_time_monitoring current_time ss
  end.

Fixpoint run (events : list Event) (ss : Session) : Rand Session :=
  match events with
  | [] => ret ss
  | e :: rest => ss' <- handle e ss ;; run rest ss'
  end.

Definition initial_session : Session :=
  {| cells_data := []; charging_status := Idle; real_time_data := [] |}.

(** The slider of the Setup page has [min_value=1]: a saved configuration
    holds at least one cell. *)
Definition well_formed_event (e : Event) : Prop :=
  match e with
  | SaveConfiguration new_cells_data => new_cells_data <> []
  | _ => True
  end.

(** ** Proof-side vocabulary *)

(** The three independent checks of [get_safety_warnings], each as the list
    it appends. *)
Definition voltage_check (spec : CellSpec) (v : Q) : list Warning :=
  if Qgtb v (spec_max spec) then [(CRITICAL, Overvoltage v (spec_max spec))]
  else if Qltb v (spec_min spec) then [(WARNING, Undervoltage v (spec_min spec))]
  else [].

Definition current_check (i : Q) : list Warning :=
  if Qgtb (Qabs i) 10 then [(WARNING, HighCurrent (Qabs i))] else [].

Definition temperature_check (t : Q) : list Warning :=
  if Qgtb t 45 then [(CRITICAL, Overheating t)]
  else if Qltb t 0 then [(WARNING, LowTemperature t)]
  else [].

(** The dimension a warning is about, and the order of emission. *)
Inductive Dimension : Type := DVoltage | DCurrent | DTemperature.

Definition dimension (w : Warning) : Dimension :=
  match snd w with
  | Overvoltage _ _ | Undervoltage _ _ => DVoltage
  | HighCurrent _ => DCurrent
  | Overheating _ | LowTemperature _ => DTemperature
  end.

Definition rank (d : Dimension) : nat :=
  match d with DVoltage => 0 | DCurrent => 1 | DTemperature => 2 end.

Definition before (a b : Warning) : Prop :=
  (rank (dimension a) < rank (dimension b))%nat.

(** The linear interpolation between the bounds of a chemistry. *)
Definition interpolate (spec : CellSpec) (v : Q) : Q :=
  (v - spec_min spec) / (spec_max spec - spec_min spec) * 100.

(** The five warnings the evaluator can emit for a reading. *)
Definition emitted_by (spec : CellSpec) (v i t : Q) (w : Warning) : Prop :=
  w = (CRITICAL, Overvoltage v (spec_max spec)) \/
  w = (WARNING, Undervoltage v (spec_min spec)) \/
  w = (WARNING, HighCurrent (Qabs i)) \/
  w = (CRITICAL, Overheating t) \/
  w = (WARNING, LowTemperature t).

(** The capacity [|voltage * current|] of the values a data point shows,
    0 for a current of 0. *)
Definition capacity_of_emitted (s : Sample) : Q :=
  if Qneb (current s) 0 then Qabs (voltage s * current s) else 0.

(** Keeping the last [k] entries when there are more than [k]. *)
Definition keep_last {A : Type} (k : nat) (l : list A) : list A :=
  if (k <? List.length l)%nat then skipn (List.length l - k) l else l.

(** While no cell is configured the buffer is empty. *)
Definition empty_while_unconfigured (ss : Session) : Prop :=
  cells_data ss = [] -> real_time_data ss = [].

(** ** The Setup page *)

(** [f"Cell_{cell_index + 1}"] *)
Definition cell_name_of (cell_index : nat) : string :=
  String.append "Cell_"
    (DecimalString.NilEmpty.string_of_uint (Nat.to_uint (cell_index + 1))).

(** [d[k] = v]: an existing key keeps its place, a new key goes last. *)
Fixpoint dict_set {V : Type} (d : dict V) (k : string) (v : V) : dict V :=
  match d with
  | [] => [(k, v)]
  | (k', v') :: d' =>
      if String.eqb k' k then (k', v) :: d' else (k', v') :: dict_set d' k v
  end.

(** [l.index(x)]; [None] stands for the [ValueError]. *)
Fixpoint list_index (l : list string) (x : string) : option nat :=
  match l with
  | [] => None
  | y :: l' =>
      if String.eqb y x then Some 0%nat
      else match list_index l' x with Some i => Some (S i) | None => None end
  end.

(** The options of the "Cell Type" select box. *)
Definition cell_type_options : list string := ["LFP"; "NMC"; "LTO"].

(** What the five widgets of one cell return. *)
Record CellWidgets : Type := mkWidgets
  { w_type : string;
    w_voltage : Q;
    w_current : Q;
    w_temperature : Q;
    w_time : Q }.

(** The select box returns one of its options and a number input a value
    between its [min_value] and [max_value]. *)
Definition widgets_in_range (w : CellWidgets) : Prop :=
  In (w_type w) cell_type_options /\
  (0 <= w_voltage w /\ w_voltage w <= 5) /\
  (-20 <= w_current w /\ w_current w <= 20) /\
  (-20 <= w_temperature w /\ w_temperature w <= 80) /\
  (0 <= w_time w /\ w_time w <= 100).

(** [cell_data.get('type', 'LFP')] *)
Definition type_of (cell_data : CellData) : string :=
  match cd_type cell_data with Some ty => ty | None => "LFP" end.

(** [configure_cell(cell_index, cells_data_dict)], reading the saved cells
    of the session and the widgets of the cell.  [None] stands for the
    [ValueError] of [.index] on a saved type that is not an option and for
    the [KeyError] of [CELL_SPECS[cell_type]]. *)
Definition configure_cell (session_cells : dict CellData) (w : CellWidgets)
    (cell_index : nat) (cells_data_dict : dict CellData)
  : option (dict CellData) :=
  let cell_name := cell_name_of cell_index in
  let existing_type :=
    match dict_get session_cells cell_name with
    | Some existing_data => type_of existing_data
    | None => "LFP"
    end in
  match list_index cell_type_options existing_type with
  | None => None
  | Some _ =>
      let cell_type := w_type w in
      let voltage := w_voltage w in
      let current := w_current w in
      let capacity := Qabs (voltage * current) in
      match dict_get CELL_SPECS cell_type with
      | None => None
      | Some spec =>
          Some (dict_set cells_data_dict cell_name
                  {| cd_type := Some cell_type;
                     cd_voltage := voltage;
                     cd_current := current;
                     cd_temperature := w_temperature w;
                     cd_time := w_time w;
                     cd_capacity := capacity |})
      end
  end.

(** [for i in range(num_cells): configure_cell(i, new_cells_data)] *)
Fixpoint configure_cells (session_cells : dict CellData)
    (widgets : nat -> CellWidgets) (indices : list nat)
    (new_cells_data : dict CellData) : option (dict CellData) :=
  match indices with
  | [] => Some new_cells_data
  | i :: rest =>
      match configure_cell session_cells (widgets i) i new_cells_data with
      | None => None
      | Some new_cells_data' =>
          configure_cells session_cells widgets rest new_cells_data'
      end
  end.

(** The Setup page: the cells are configured into a fresh dict, which
    replaces [cells_data] when "Save Configuration" is pressed. *)
Definition setup_page (ss : Session) (num_cells : nat)
    (widgets : nat -> CellWidgets) (save : bool) : option Session :=
  match configure_cells (cells_data ss) widgets (seq 0 num_cells) [] with
  | None => None
  | Some new_cells_data =>
      if save
      then Some {| cells_data := new_cells_data;
                   charging_status := charging_status ss;
                   real_time_data := real_time_data ss |}
      else Some ss
  end.

(** ** The Dashboard page *)

(** The colour of a cell card. *)
Definition charge_color (charge_pct : Q) : string :=
  if Qgtb charge_pct 80 then "#4CAF50"
  else if Qgtb charge_pct 40 then "#FF9800"
  else "#F44336".

Record CellCard : Type := mkCard
  { card_column : nat;
    card_name : string;
    card_type : string;
    card_voltage : Q;
    card_charge : Q;
    card_temperature : Q;
    card_color : string }.

(** The loop of "Cells Overview": [cols[idx % 4]] may raise [IndexError]
    and [calculate_charge_percentage] [KeyError], both [None] here. *)
Fixpoint cells_overview_loop (cols : list nat) (idx : nat)
    (items : dict CellData) (cards : list CellCard) : option (list CellCard) :=
  match items with
  | [] => Some cards
  | (cell_name, cell_data) :: rest =>
      match nth_error cols (idx mod 4) with
      | None => None
      | Some col =>
          match calculate_charge_percentage (cd_voltage cell_data)
                  (type_of cell_data) with
          | None => None
          | Some charge_pct =>
              cells_overview_loop cols (S idx) rest
                (cards ++ [ {| card_column := col;
                               card_name := cell_name;
                               card_type := type_of cell_data;
                               card_voltage := cd_voltage cell_data;
                               card_charge := charge_pct;
                               card_temperature := cd_temperature cell_data;
                               card_color := charge_color charge_pct |} ])
          end
      end
  end.

(** [cols = st.columns(min(4, len(cells_data)))], drawn only when there is
    a cell. *)
Definition cells_overview (ss : Session) : option (list CellCard) :=
  match cells_data ss with
  | [] => Some []
  | _ :: _ =>
      let cols := seq 0 (Nat.min 4 (List.length (cells_data ss))) in
      cells_overview_loop cols 0 (cells_data ss) []
  end.

(** The loop of "Safety Warnings": every warning of every cell, under the
    name of its cell. *)
Fixpoint all_warnings_loop (items : dict CellData)
    (all_warnings : list (string * Warning))
  : option (list (string * Warning)) :=
  match items with
  | [] => Some all_warnings
  | (cell_name, cell_data) :: rest =>
      match get_safety_warnings (cd_voltage cell_data) (cd_current cell_data)
              (cd_temperature cell_data) (type_of cell_data) with
      | None => None
      | Some warnings =>
          all_warnings_loop rest
            (all_warnings ++ map (fun w => (cell_name, w)) warnings)
      end
  end.

Definition all_warnings (ss : Session) : option (list (string * Warning)) :=
  all_warnings_loop (cells_data ss) [].

(** The panel shows "All systems operating normally" when the list is
    empty. *)
Definition operating_normally (ss : Session) : option bool :=
  match all_warnings ss with
  | None => None
  | Some [] => Some true
  | Some (_ :: _) => Some false
  end.

(** ** The Analysis page: the mock history *)

(** The body of the inner loop: one row for one cell at one minute. *)
Definition historical_row (timestamp : Z) (cell_name : string)
    (cell_data : CellData) : Rand Sample :=
  r1 <- uniform (-0.2) 0.2 ;;
  r2 <- uniform (-1) 1 ;;
  r3 <- uniform (-5) 15 ;;
  let voltage := cd_voltage cell_data + r1 in
  let current := cd_current cell_data + r2 in
  let temperature := cd_temperature cell_data + r3 in
  let capacity := Qabs (voltage * current) in
  ret {| timestamp := timestamp;
         cell_id := cell_name;
         cell_type := type_of cell_data;
         voltage := py_max 0 voltage;
         current := current;
         temperature := temperature;
         capacity := capacity |}.

Fixpoint historical_cells (timestamp : Z) (items : dict CellData)
    (historical_data : list Sample) : Rand (list Sample) :=
  match items with
  | [] => ret historical_data
  | (cell_name, cell_data) :: rest =>
      row <- historical_row timestamp cell_name cell_data ;;
      historical_cells timestamp rest (historical_data ++ [row])
  end.

(** Times are counted in seconds: [timedelta(minutes=i)] is [60 * i]. *)
Fixpoint historical_minutes (base_time : Z) (minutes : list nat)
    (items : dict CellData) (historical_data : list Sample)
  : Rand (list Sample) :=
  match minutes with
  | [] => ret historical_data
  | i :: rest =>
      let timestamp := (base_time + 60 * Z.of_nat i)%Z in
      historical_data' <- historical_cells timestamp items historical_data ;;
      historical_minutes base_time rest items historical_data'
  end.

(** Two hours of rows, one per minute and cell, ending at [now]; no row
    when no cell is configured. *)
Definition generate_historical_data (now : Z) (ss : Session)
  : Rand (list Sample) :=
  let base_time := (now - 2 * 3600)%Z in
  match cells_data ss with
  | [] => ret []
  | _ :: _ => historical_minutes base_time (seq 0 120) (cells_data ss) []
  end.

(** The history is generated only while the stored one is empty. *)
Definition historical_data_of (now : Z) (ss : Session)
    (historical_data : list Sample) : Rand (list Sample) :=
  match historical_data with
  | [] => generate_historical_data now ss
  | _ :: _ => ret historical_data
  end.

(** ** More proof-side vocabulary *)

(** [random()] returns a value of [0, 1). *)
Definition unit_draws (g : Rng) : Prop :=
  forall n, 0 <= stream g n /\ stream g n < 1.

(** The chemistry of every configured cell is one of the select box. *)
Definition known_types (cells : dict CellData) : Prop :=
  Forall (fun item => In (type_of (snd item)) cell_type_options) cells.

(** The reading of a cell is within the safety limits of its chemistry. *)
Definition within_limits (cell_data : CellData) : Prop :=
  exists spec,
    dict_get CELL_SPECS (type_of cell_data) = Some spec /\
    (spec_min spec <= cd_voltage cell_data /\
     cd_voltage cell_data <= spec_max spec) /\
    Qabs (cd_current cell_data) <= 10 /\
    (0 <= cd_temperature cell_data /\ cd_temperature cell_data <= 45).

(** Red, orange, green. *)
Definition color_rank (color : string) : nat :=
  if String.eqb color "#4CAF50" then 2
  else if String.eqb color "#FF9800" then 1
  else 0.




(** The record [configure_cell] stores for the widgets of a cell. *)
Definition stored_cell (w : CellWidgets) : CellData :=
  {| cd_type := Some (w_type w);
     cd_voltage := w_voltage w;
     cd_current := w_current w;
     cd_temperature := w_temperature w;
     cd_time := w_time w;
     cd_capacity := Qabs (w_voltage w * w_current w) |}.

(** The dict after the cells of indices below [a] have been configured. *)
Definition configured_up_to (widgets : nat -> CellWidgets) (a : nat)
    (d : dict CellData) : Prop :=
  map fst d = map cell_name_of (seq 0 a) /\
  (forall i, (i < a)%nat ->
             dict_get d (cell_name_of i) = Some (stored_cell (widgets i))) /\
  Forall (fun item => exists i, (i < a)%nat /\
            item = (cell_name_of i, stored_cell (widgets i))) d.

(** The warnings of one cell, as the panel computes them. *)
Definition warnings_of (cell_data : CellData) : option (list Warning) :=
  get_safety_warnings (cd_voltage cell_data) (cd_current cell_data)
    (cd_temperature cell_data) (type_of cell_data).

(** What a card of the overview shows for the cell at position [k]. *)
Definition card_for (k : nat) (item : string * CellData) (card : CellCard) : Prop :=
  card_column card = (k mod 4)%nat /\
  card_name card = fst item /\
  card_type card = type_of (snd item) /\
  card_voltage card = cd_voltage (snd item) /\
  card_temperature card = cd_temperature (snd item) /\
  calculate_charge_percentage (cd_voltage (snd item)) (type_of (snd item))
    = Some (card_charge card) /\
  (0 <= card_charge card /\ card_charge card <= 100) /\
  card_color card = charge_color (card_charge card).

(** The drift of the voltage around the configured value, for each
    status. *)
Definition voltage_drift (status : ChargingStatus) : Q * Q :=
  match status with
  | Charging => (0.05, 0.15)
  | Discharging => (-0.15, -0.05)
  | Paused => (-0.02, 0.02)
  | Idle => (-0.01, 0.01)
  end.

(** The drift of the temperature. *)
Definition temperature_drift (status : ChargingStatus) : Q * Q :=
  match status with
  | Charging => (2, 8)
  | Discharging => (1, 5)
  | Paused => (-1, 1)
  | Idle => (-0.5, 0.5)
  end.

(** The interval of the current. *)
Definition current_interval (status : ChargingStatus) (base_current : Q) : Q * Q :=
  match status with
  | Charging => (Qabs base_current - 0.5, Qabs base_current + 0.5)
  | Discharging => (- Qabs base_current - 0.5, - Qabs base_current + 0.5)
  | Paused => (-0.1, 0.1)
  | Idle => (0, 0)
  end.

(** A data point within the drifts and the interval of its status; the
    voltage may also have been clamped to 0. *)
Definition in_envelope (status : ChargingStatus) (cell_data : CellData)
    (s : Sample) : Prop :=
  (cd_voltage cell_data + fst (voltage_drift status) <= voltage s /\
   (voltage s <= cd_voltage cell_data + snd (voltage_drift status) \/
    voltage s = 0)) /\
  (fst (current_interval status (cd_current cell_data)) <= current s /\
   current s <= snd (current_interval status (cd_current cell_data))) /\
  (cd_temperature cell_data + fst (temperature_drift status) <= temperature s /\
   temperature s <= cd_temperature cell_data + snd (temperature_drift status)).


(** What every row of the history shows, whatever the draws are. *)
Definition history_row (now : Z) (p : nat * (string * CellData)) (row : Sample)
  : Prop :=
  timestamp row = (now - 2 * 3600 + 60 * Z.of_nat (fst p))%Z /\
  cell_id row = fst (snd p) /\
  cell_type row = type_of (snd (snd p)) /\
  0 <= voltage row /\
  0 <= capacity row.

(** The variation of a row of the history around the configured values. *)
Definition history_envelope (cell_data : CellData) (row : Sample) : Prop :=
  (cd_voltage cell_data - 0.2 <= voltage row /\
   (voltage row <= cd_voltage cell_data + 0.2 \/ voltage row = 0)) /\
  (cd_current cell_data - 1 <= current row /\
   current row <= cd_current cell_data + 1) /\
  (cd_temperature cell_data - 5 <= temperature row /\
   temperature row <= cd_temperature cell_data + 15) /\
  (capacity row = Qabs (voltage row * current row) \/ voltage row = 0).

(** The four buttons of the Control Panel. *)
Definition is_button (e : Event) : bool :=
  match e with
  | StartCharging | StartDischarging | Pause | Stop => true
  | _ => false
  end.

(** The status a button sets. *)
Definition status_of_button (e : Event) (s : ChargingStatus) : ChargingStatus :=
  match e with
  | StartCharging => Charging
  | StartDischarging => Discharging
  | Pause => Paused
  | Stop => Idle
  | _ => s
  end.

(** The generator after [n] more draws. *)
Definition advance (g : Rng) (n : nat) : Rng :=
  mkRng (stream g) (n + cursor g).

(** The number of draws [generate_real_time_data] makes for one cell. *)
Definition draws_per_cell (status : ChargingStatus) : nat :=
  match status with Idle => 2 | _ => 3 end.

(** The items of a dict with their position in it. *)
Definition indexed {A : Type} (l : list A) : list (nat * A) :=
  combine (seq 0 (List.length l)) l.

(** The reading drawn for the cell at position [k] of the dict in a call
    that starts with the generator [g]: the cells before it have taken
    [k * draws_per_cell] draws. *)
Definition reading_at (status : ChargingStatus) (g : Rng) (k : nat)
    (cell_data : CellData) : Q * Q * Q :=
  fst (perturb status cell_data (advance g (k * draws_per_cell status))).

(** ** Sessions and readings used as examples *)

(** A cell configured with 2.0 A, idle. *)
Definition idle_session : Session :=
  {| cells_data := [("Cell_1", mkCell (Some "LFP") 3.2 2.0 25 1 6.4)];
     charging_status := Idle;
     real_time_data := [] |}.

(** A cell configured at 0 V and 2 A, discharging.  With [half_draws] its
    perturbed reading is -0.1 V, -2 A, 28 degrees. *)
Definition drained_session : Session :=
  {| cells_data := [("Cell_1", mkCell (Some "LFP") 0 2 25 1 0)];
     charging_status := Discharging;
     real_time_data := [] |}.

(** A generator whose every [random()] is 0.5. *)
Definition half_draws : Rng := mkRng (fun _ => 0.5) 0.

(** A data point of an earlier tick. *)
Definition old_point : Sample :=
  {| timestamp := 0; cell_id := "Cell_1"; cell_type := "LFP";
     voltage := 3.2; current := 0; temperature := 25; capacity := 0 |}.

(** One cell and a buffer that already holds 60 points. *)
Definition full_session : Session :=
  {| cells_data := [("Cell_1", mkCell (Some "LFP") 3.2 2.0 25 1 6.4)];
     charging_status := Idle;
     real_time_data := repeat old_point 60 |}.

(** The data point of the idle session under [half_draws]. *)
Definition idle_point : Sample :=
  hd old_point (fst (generate_real_time_data 0 idle_session half_draws)).

(** ** Comparisons *)

Lemma Qltb_lt (x y : Q) : Qltb x y = true <-> x < y.
Proof. unfold Qltb, Qlt. apply Z.ltb_lt. Qed.

Lemma Qltb_ge (x y : Q) : Qltb x y = false <-> y <= x.
Proof. unfold Qltb, Qle. apply Z.ltb_ge. Qed.

Lemma Qgtb_gt (x y : Q) : Qgtb x y = true <-> y < x.
Proof. apply Qltb_lt. Qed.

Lemma Qgtb_le (x y : Q) : Qgtb x y = false <-> x <= y.
Proof. apply Qltb_ge. Qed.

Lemma Qleb_le (x y : Q) : Qleb x y = true <-> x <= y.
Proof. apply Qle_bool_iff. Qed.

Lemma Qleb_gt (x y : Q) : Qleb x y = false <-> y < x.
Proof.
  unfold Qleb. split; intro H.
  - apply Qnot_le_lt. intro Hle. apply Qle_bool_iff in Hle. congruence.
  - destruct (Qle_bool x y) eqn:E; [|reflexivity].
    apply Qle_bool_iff in E. exfalso. apply (Qlt_not_le _ _ H E).
Qed.

Lemma Qgeb_ge (x y : Q) : Qgeb x y = true <-> y <= x.
Proof. apply Qleb_le. Qed.

Lemma Qgeb_lt (x y : Q) : Qgeb x y = false <-> x < y.
Proof. apply Qleb_gt. Qed.

Lemma Qneb_neq (x y : Q) : Qneb x y = true <-> ~ x == y.
Proof.
  unfold Qneb. rewrite negb_true_iff. split; intro H.
  - apply Qeq_bool_neq, H.
  - destruct (Qeq_bool x y) eqn:E; [|reflexivity].
    apply Qeq_bool_iff in E. contradiction.
Qed.

Lemma Qneb_eq (x y : Q) : Qneb x y = false <-> x == y.
Proof. unfold Qneb. rewrite negb_false_iff. apply Qeq_bool_iff. Qed.

(** Every boolean test of the script that is in the context, as the
    inequality it decides. *)
Ltac tests_to_props :=
  repeat match goal with
  | H : Qgtb _ _ = true |- _ => apply Qgtb_gt in H
  | H : Qgtb _ _ = false |- _ => apply Qgtb_le in H
  | H : Qltb _ _ = true |- _ => apply Qltb_lt in H
  | H : Qltb _ _ = false |- _ => apply Qltb_ge in H
  | H : Qleb _ _ = true |- _ => apply Qleb_le in H
  | H : Qleb _ _ = false |- _ => apply Qleb_gt in H
  | H : Qgeb _ _ = true |- _ => apply Qgeb_ge in H
  | H : Qgeb _ _ = false |- _ => apply Qgeb_lt in H
  | H : Qneb _ _ = true |- _ => apply Qneb_neq in H
  | H : Qneb _ _ = false |- _ => apply Qneb_eq in H
  end.

Lemma py_max_nonneg (v : Q) : 0 <= py_max 0 v.
Proof.
  unfold py_max. destruct (Qgtb v 0) eqn:E; tests_to_props.
  - apply Qlt_le_weak, E.
  - apply Qle_refl.
Qed.

Lemma py_max_of_nonneg (v : Q) : 0 <= v -> py_max 0 v == v.
Proof.
  intro H. unfold py_max. destruct (Qgtb v 0) eqn:E; tests_to_props.
  - reflexivity.
  - apply Qle_antisym; assumption.
Qed.

Lemma py_max_int_max (a b : Z) : py_max_int a b = Z.max a b.
Proof. unfold py_max_int. destruct (Z.gtb_spec b a); lia. Qed.

(** ** The chemistry table *)

Lemma CELL_SPECS_cases (cell_type : string) (spec : CellSpec) :
  dict_get CELL_SPECS cell_type = Some spec ->
  (cell_type = "LFP" /\ spec = mkSpec 3.2 2.8 3.6 "#4CAF50") \/
  (cell_type = "NMC" /\ spec = mkSpec 3.6 3.0 4.2 "#2196F3") \/
  (cell_type = "LTO" /\ spec = mkSpec 2.4 1.8 2.8 "#FF9800").
Proof.
  unfold CELL_SPECS. cbn [dict_get].
  destruct (String.eqb_spec "LFP" cell_type) as [<-|_].
  { intros [= <-]. left. split; reflexivity. }
  destruct (String.eqb_spec "NMC" cell_type) as [<-|_].
  { intros [= <-]. right. left. split; reflexivity. }
  destruct (String.eqb_spec "LTO" cell_type) as [<-|_].
  { intros [= <-]. right. right. split; reflexivity. }
  discriminate.
Qed.

Lemma CELL_SPECS_bounds (cell_type : string) (spec : CellSpec) :
  dict_get CELL_SPECS cell_type = Some spec ->
  spec_min spec < spec_nominal spec /\ spec_nominal spec < spec_max spec.
Proof.
  intro H. apply CELL_SPECS_cases in H.
  destruct H as [[_ ->]|[[_ ->]|[_ ->]]]; split; reflexivity.
Qed.

Lemma CELL_SPECS_min_lt_max (cell_type : string) (spec : CellSpec) :
  dict_get CELL_SPECS cell_type = Some spec -> spec_min spec < spec_max spec.
Proof.
  intro H. apply CELL_SPECS_bounds in H. destruct H as [H1 H2].
  eapply Qlt_trans; eassumption.
Qed.

(** ** The safety evaluator *)

Section SafetyEvaluator.

Variables voltage_in current_in temperature_in : Q.

(** The evaluator fails exactly on a chemistry that is not in the table. *)
Lemma get_safety_warnings_checks (cell_type : string) :
  get_safety_warnings voltage_in current_in temperature_in cell_type =
  match dict_get CELL_SPECS cell_type with
  | None => None
  | Some spec =>
      Some (voltage_check spec voltage_in ++ current_check current_in
              ++ temperature_check temperature_in)
  end.
Proof.
  unfold get_safety_warnings, voltage_check, current_check, temperature_check.
  destruct (dict_get CELL_SPECS cell_type) as [spec|]; [|reflexivity].
  destruct (Qgtb voltage_in (spec_max spec));
    [|destruct (Qltb voltage_in (spec_min spec))];
    destruct (Qgtb (Qabs current_in) 10);
    (destruct (Qgtb temperature_in 45);
     [|destruct (Qltb temperature_in 0)]); reflexivity.
Qed.

Lemma voltage_check_nil (spec : CellSpec) :
  voltage_check spec voltage_in = [] <->
  spec_min spec <= voltage_in /\ voltage_in <= spec_max spec.
Proof.
  unfold voltage_check.
  destruct (Qgtb voltage_in (spec_max spec)) eqn:Hover;
    [|destruct (Qltb voltage_in (spec_min spec)) eqn:Hunder];
    tests_to_props; split; try discriminate; try tauto.
  - intros [_ H]. exfalso. apply (Qlt_not_le _ _ Hover H).
  - intros [H _]. exfalso. apply (Qlt_not_le _ _ Hunder H).
Qed.

Lemma current_check_nil : current_check current_in = [] <-> Qabs current_in <= 10.
Proof.
  unfold current_check.
  destruct (Qgtb (Qabs current_in) 10) eqn:Hhigh;
    tests_to_props; split; try discriminate; try tauto.
  intro H. exfalso. apply (Qlt_not_le _ _ Hhigh H).
Qed.

Lemma temperature_check_nil :
  temperature_check temperature_in = [] <->
  0 <= temperature_in /\ temperature_in <= 45.
Proof.
  unfold temperature_check.
  destruct (Qgtb temperature_in 45) eqn:Hhot;
    [|destruct (Qltb temperature_in 0) eqn:Hcold];
    tests_to_props; split; try discriminate; try tauto.
  - intros [_ H]. exfalso. apply (Qlt_not_le _ _ Hhot H).
  - intros [H _]. exfalso. apply (Qlt_not_le _ _ Hcold H).
Qed.

Lemma voltage_check_length (spec : CellSpec) :
  (List.length (voltage_check spec voltage_in) <= 1)%nat.
Proof.
  unfold voltage_check.
  destruct (Qgtb _ _); [|destruct (Qltb _ _)]; simpl; lia.
Qed.

Lemma current_check_length : (List.length (current_check current_in) <= 1)%nat.
Proof. unfold current_check. destruct (Qgtb _ _); simpl; lia. Qed.

Lemma temperature_check_length :
  (List.length (temperature_check temperature_in) <= 1)%nat.
Proof.
  unfold temperature_check.
  destruct (Qgtb _ _); [|destruct (Qltb _ _)]; simpl; lia.
Qed.

Lemma get_safety_warnings_length (cell_type : string) (warnings : list Warning) :
  get_safety_warnings voltage_in current_in temperature_in cell_type
    = Some warnings ->
  (List.length warnings <= 3)%nat.
Proof.
  rewrite get_safety_warnings_checks.
  destruct (dict_get CELL_SPECS cell_type) as [spec|]; [|discriminate].
  intros [= <-]. rewrite !length_app.
  pose proof (voltage_check_length spec).
  pose proof current_check_length.
  pose proof temperature_check_length. lia.
Qed.

End SafetyEvaluator.

(** C1.  For a chemistry of the table the safety evaluator returns a list
    (it does not raise), whatever the voltage, the signed current and the
    temperature are, and the list is empty exactly when
    [min <= v <= max], [|i| <= 10] and [0 <= t <= 45]. *)
Theorem get_safety_warnings_total_empty_iff
    (v i t : Q) (cell_type : string) (spec : CellSpec) :
  dict_get CELL_SPECS cell_type = Some spec ->
  exists warnings,
    get_safety_warnings v i t cell_type = Some warnings /\
    (warnings = [] <->
     (spec_min spec <= v /\ v <= spec_max spec) /\
     Qabs i <= 10 /\
     (0 <= t /\ t <= 45)).
Proof.
  intro Hspec. rewrite get_safety_warnings_checks, Hspec.
  eexists. split; [reflexivity|].
  rewrite <- voltage_check_nil, <- current_check_nil, <- temperature_check_nil.
  split.
  - intro H. apply app_eq_nil in H. destruct H as [Hv H].
    apply app_eq_nil in H. tauto.
  - intros (-> & -> & ->). reflexivity.
Qed.

(** A reading below freezing on an LFP cell: one warning, no error. *)
Lemma get_safety_warnings_total_empty_iff_witness :
  dict_get CELL_SPECS "LFP" = Some (mkSpec 3.2 2.8 3.6 "#4CAF50") /\
  exists warnings,
    get_safety_warnings 3.2 2 (-5) "LFP" = Some warnings /\
    (warnings = [] <->
     (2.8 <= 3.2 /\ 3.2 <= 3.6) /\ Qabs 2 <= 10 /\ (0 <= -5 /\ -5 <= 45)).
Proof.
  split; [reflexivity|].
  apply (get_safety_warnings_total_empty_iff 3.2 2 (-5) "LFP"
           (mkSpec 3.2 2.8 3.6 "#4CAF50")).
  reflexivity.
Defined.

Example negative_temperature_warns :
  get_safety_warnings 3.2 2 (-5) "LFP" = Some [(WARNING, LowTemperature (-5))].
Proof. reflexivity. Qed.

Example unknown_chemistry_raises :
  get_safety_warnings 3.2 2 20 "NiMH" = None.
Proof. reflexivity. Qed.

Ltac split_in :=
  repeat match goal with
  | H : In _ _ |- _ => simpl in H
  | H : _ \/ _ |- _ => destruct H as [H|H]
  | H : _ /\ _ |- _ => destruct H
  | H : False |- _ => destruct H
  | H : (_, _) = (_, _) |- _ => try discriminate H; clear H
  end.

Ltac absurd_order :=
  match goal with
  | H1 : ?a < ?b, H2 : ?b <= ?a |- _ => exfalso; apply (Qlt_not_le _ _ H1 H2)
  | H1 : ?a < ?b, H2 : ?b < ?a |- _ =>
      exfalso; apply (Qlt_not_le _ _ H1); apply Qlt_le_weak, H2
  | H1 : ?a < ?b, H2 : ?b <= ?a /\ _ |- _ =>
      exfalso; apply (Qlt_not_le _ _ H1), H2
  | H1 : ?b <= ?a, H2 : _ /\ ?a < ?b |- _ =>
      exfalso; apply (Qlt_not_le _ _ (proj2 H2) H1)
  end.

(** C5.  The warnings come out in the order voltage, current, temperature,
    at most one per dimension.  Overvoltage is CRITICAL and is emitted
    exactly when [v > max]; undervoltage is a WARNING and is emitted exactly
    when [v < min] and the overvoltage test failed; overheating is CRITICAL,
    emitted exactly when [t > 45]; low temperature is a WARNING, emitted
    exactly when [t < 0]; the two warnings of one dimension never come
    together. *)
Theorem get_safety_warnings_ordered_exclusive
    (v i t : Q) (cell_type : string) (warnings : list Warning) :
  get_safety_warnings v i t cell_type = Some warnings ->
  exists spec,
    dict_get CELL_SPECS cell_type = Some spec /\
    StronglySorted before warnings /\
    Forall (emitted_by spec v i t) warnings /\
    (In (CRITICAL, Overvoltage v (spec_max spec)) warnings <-> spec_max spec < v) /\
    (In (WARNING, Undervoltage v (spec_min spec)) warnings <->
       v <= spec_max spec /\ v < spec_min spec) /\
    (In (WARNING, HighCurrent (Qabs i)) warnings <-> 10 < Qabs i) /\
    (In (CRITICAL, Overheating t) warnings <-> 45 < t) /\
    (In (WARNING, LowTemperature t) warnings <-> t <= 45 /\ t < 0) /\
    ~ (In (CRITICAL, Overvoltage v (spec_max spec)) warnings /\
       In (WARNING, Undervoltage v (spec_min spec)) warnings) /\
    ~ (In (CRITICAL, Overheating t) warnings /\
       In (WARNING, LowTemperature t) warnings).
Proof.
  rewrite get_safety_warnings_checks.
  destruct (dict_get CELL_SPECS cell_type) as [spec|]; [|discriminate].
  intros [= <-]. exists spec. split; [reflexivity|].
  unfold voltage_check, current_check, temperature_check.
  destruct (Qgtb v (spec_max spec)) eqn:Hover;
    [|destruct (Qltb v (spec_min spec)) eqn:Hunder];
    destruct (Qgtb (Qabs i) 10) eqn:Hhigh;
    (destruct (Qgtb t 45) eqn:Hhot; [|destruct (Qltb t 0) eqn:Hcold]);
    tests_to_props; cbn [app];
    (split; [repeat constructor; unfold before; simpl; lia|]);
    (split; [repeat constructor; unfold emitted_by; tauto|]);
    repeat split; try (intros [? ?]); intros; split_in; simpl;
    try absurd_order; try assumption; try tauto.
Qed.

(** Overvoltage, high current and overheating at once on an LFP cell. *)
Lemma get_safety_warnings_ordered_exclusive_witness :
  get_safety_warnings 3.7 12 50 "LFP" =
    Some [(CRITICAL, Overvoltage 3.7 3.6); (WARNING, HighCurrent (Qabs 12));
          (CRITICAL, Overheating 50)] /\
  exists spec,
    dict_get CELL_SPECS "LFP" = Some spec /\
    StronglySorted before
      [(CRITICAL, Overvoltage 3.7 3.6); (WARNING, HighCurrent (Qabs 12));
       (CRITICAL, Overheating 50)] /\
    Forall (emitted_by spec 3.7 12 50)
      [(CRITICAL, Overvoltage 3.7 3.6); (WARNING, HighCurrent (Qabs 12));
       (CRITICAL, Overheating 50)].
Proof.
  split; [reflexivity|].
  destruct (get_safety_warnings_ordered_exclusive 3.7 12 50 "LFP"
              [(CRITICAL, Overvoltage 3.7 3.6); (WARNING, HighCurrent (Qabs 12));
               (CRITICAL, Overheating 50)] eq_refl)
    as (spec & Hspec & Hsorted & Hall & _).
  exists spec. split; [exact Hspec|]. split; [exact Hsorted|exact Hall].
Defined.

(** The two worked readings of the specification. *)
Example lfp_overvoltage :
  get_safety_warnings 3.7 2 20 "LFP" = Some [(CRITICAL, Overvoltage 3.7 3.6)] /\
  safety_score 1 = 75%Z.
Proof. split; reflexivity. Qed.

Example nmc_high_current_overheating :
  get_safety_warnings 3.6 12 50 "NMC" =
    Some [(WARNING, HighCurrent (Qabs 12)); (CRITICAL, Overheating 50)] /\
  safety_score 2 = 50%Z.
Proof. split; reflexivity. Qed.

(** ** The safety score *)

Lemma safety_score_max (n : nat) :
  safety_score n = Z.max 0 (100 - 25 * Z.of_nat n).
Proof. unfold safety_score. rewrite py_max_int_max. f_equal. lia. Qed.

(** C3.  The score of [n] warnings is [max(0, 100 - 25 * n)]: 25 points
    less for each warning down to 0, that is [100 - 25 * n] up to four
    warnings and 0 from there on; 100 for no warning, 25 for three, 0 for
    five. *)
Theorem safety_score_formula (n : nat) :
  safety_score n = Z.max 0 (100 - 25 * Z.of_nat n) /\
  safety_score n = (if (n <=? 4)%nat then 100 - 25 * Z.of_nat n else 0)%Z /\
  safety_score (S n) = Z.max 0 (safety_score n - 25) /\
  safety_score 0 = 100%Z /\
  safety_score 3 = 25%Z /\
  safety_score 5 = 0%Z.
Proof.
  repeat split; try reflexivity.
  - apply safety_score_max.
  - rewrite safety_score_max. destruct (Nat.leb_spec n 4); lia.
  - rewrite !safety_score_max. lia.
Qed.

(** The rows of the Analysis page carry the score of their own count. *)
Lemma safety_data_rows (df : list Sample) (rows : list SafetyRow) :
  safety_data df = Some rows ->
  Forall (fun r => row_safety_score r = safety_score (row_warning_count r) /\
                   (row_warning_count r <= 3)%nat) rows.
Proof.
  revert rows. induction df as [|row df IH]; intros rows; simpl.
  - intros [= <-]. constructor.
  - destruct (get_safety_warnings _ _ _ _) as [warnings|] eqn:Hw; [|discriminate].
    destruct (safety_data df) as [out|]; [|discriminate].
    intros [= <-]. constructor.
    + simpl. split; [reflexivity|].
      eapply get_safety_warnings_length, Hw.
    + apply IH. reflexivity.
Qed.

(** C10.  One reading yields at most three warnings, so its safety score
    is one of 25, 50, 75 and 100: it is at least 25 and never the floor 0. *)
Theorem single_reading_score
    (v i t : Q) (cell_type : string) (warnings : list Warning) :
  get_safety_warnings v i t cell_type = Some warnings ->
  (List.length warnings <= 3)%nat /\
  (25 <= safety_score (List.length warnings))%Z /\
  In (safety_score (List.length warnings)) [25; 50; 75; 100]%Z /\
  safety_score (List.length warnings) <> 0%Z.
Proof.
  intro H. apply get_safety_warnings_length in H.
  assert (Hn : (List.length warnings = 0 \/ List.length warnings = 1 \/
                List.length warnings = 2 \/ List.length warnings = 3)%nat) by lia.
  split; [exact H|].
  destruct Hn as [-> | [-> | [-> | ->]]]; cbn; intuition (try lia; discriminate).
Qed.

(** Three warnings, the most a reading can raise, leave a score of 25. *)
Lemma single_reading_score_witness :
  get_safety_warnings 3.7 12 50 "LFP" =
    Some [(CRITICAL, Overvoltage 3.7 3.6); (WARNING, HighCurrent (Qabs 12));
          (CRITICAL, Overheating 50)] /\
  (3 <= 3)%nat /\
  (25 <= safety_score 3)%Z /\
  In (safety_score 3) [25; 50; 75; 100]%Z /\
  safety_score 3 <> 0%Z.
Proof.
  split; [reflexivity|].
  apply (single_reading_score 3.7 12 50 "LFP"
           [(CRITICAL, Overvoltage 3.7 3.6); (WARNING, HighCurrent (Qabs 12));
            (CRITICAL, Overheating 50)]).
  reflexivity.
Defined.

(** ** The charge estimator *)

Section Interpolation.

Variable spec : CellSpec.
Hypothesis bounds : spec_min spec < spec_max spec.

Lemma width_pos : 0 < spec_max spec - spec_min spec.
Proof. unfold Qminus. rewrite <- Qlt_minus_iff. exact bounds. Qed.

Lemma interpolate_nonneg (v : Q) : spec_min spec <= v -> 0 <= interpolate spec v.
Proof.
  intro H. unfold interpolate.
  apply Qmult_le_0_compat; [|discriminate].
  apply Qle_shift_div_l; [exact width_pos|].
  rewrite Qmult_0_l. unfold Qminus. rewrite <- Qle_minus_iff. exact H.
Qed.

Lemma interpolate_le_100 (v : Q) : v <= spec_max spec -> interpolate spec v <= 100.
Proof.
  intro H. unfold interpolate.
  setoid_replace 100 with (1 * 100) at 2 by reflexivity.
  apply Qmult_le_compat_r; [|discriminate].
  apply Qle_shift_div_r; [exact width_pos|].
  rewrite Qmult_1_l. unfold Qminus. apply Qplus_le_l. exact H.
Qed.

Lemma interpolate_mono (v1 v2 : Q) :
  v1 <= v2 -> interpolate spec v1 <= interpolate spec v2.
Proof.
  intro H. unfold interpolate, Qdiv.
  apply Qmult_le_compat_r; [|discriminate].
  apply Qmult_le_compat_r.
  - unfold Qminus. apply Qplus_le_l. exact H.
  - apply Qlt_le_weak, Qinv_lt_0_compat, width_pos.
Qed.

End Interpolation.

(** The three branches of the estimator for a chemistry of the table. *)
Lemma calculate_charge_percentage_cases
    (v : Q) (cell_type : string) (spec : CellSpec) :
  dict_get CELL_SPECS cell_type = Some spec ->
  (v <= spec_min spec /\ calculate_charge_percentage v cell_type = Some 0) \/
  (spec_max spec <= v /\ calculate_charge_percentage v cell_type = Some 100) \/
  (spec_min spec < v /\ v < spec_max spec /\
   calculate_charge_percentage v cell_type = Some (interpolate spec v)).
Proof.
  intro Hspec. pose proof (CELL_SPECS_min_lt_max _ _ Hspec) as Hb.
  unfold calculate_charge_percentage. rewrite Hspec.
  destruct (Qleb v (spec_min spec)) eqn:Hlow;
    [|destruct (Qgeb v (spec_max spec)) eqn:Hhigh]; tests_to_props.
  - left. split; [exact Hlow|reflexivity].
  - right. left. split; [exact Hhigh|reflexivity].
  - right. right. repeat split; assumption.
Qed.

(** C2.  For a chemistry of the table with bounds [(min, max)] the
    estimator returns 0 when [v <= min], 100 when [v >= max] and
    [(v - min) / (max - min) * 100] in between; the result lies in
    [0, 100]; it is 0 at [min] and 100 at [max]. *)
Theorem calculate_charge_percentage_spec
    (v : Q) (cell_type : string) (spec : CellSpec) :
  dict_get CELL_SPECS cell_type = Some spec ->
  exists p,
    calculate_charge_percentage v cell_type = Some p /\
    (v <= spec_min spec -> p = 0) /\
    (spec_max spec <= v -> p = 100) /\
    (spec_min spec < v /\ v < spec_max spec ->
     p = (v - spec_min spec) / (spec_max spec - spec_min spec) * 100) /\
    (0 <= p /\ p <= 100) /\
    calculate_charge_percentage (spec_min spec) cell_type = Some 0 /\
    calculate_charge_percentage (spec_max spec) cell_type = Some 100.
Proof.
  intro Hspec. pose proof (CELL_SPECS_min_lt_max _ _ Hspec) as Hb.
  assert (Hmin : calculate_charge_percentage (spec_min spec) cell_type = Some 0).
  { destruct (calculate_charge_percentage_cases (spec_min spec) _ _ Hspec)
      as [[_ H]|[[H _]|[H _]]]; [exact H| |].
    - exfalso. apply (Qlt_not_le _ _ Hb H).
    - exfalso. apply (Qlt_irrefl _ H). }
  assert (Hmax : calculate_charge_percentage (spec_max spec) cell_type = Some 100).
  { destruct (calculate_charge_percentage_cases (spec_max spec) _ _ Hspec)
      as [[H _]|[[_ H]|[_ [H _]]]]; [|exact H|].
    - exfalso. apply (Qlt_not_le _ _ Hb H).
    - exfalso. apply (Qlt_irrefl _ H). }
  destruct (calculate_charge_percentage_cases v _ _ Hspec)
    as [[Hlow ->]|[[Hhigh ->]|(Hlow & Hhigh & ->)]];
    eexists; (split; [reflexivity|]); repeat split;
    try exact Hmin; try exact Hmax; try discriminate; try reflexivity; intros.
  - exfalso. apply (Qlt_not_le _ _ Hb). eapply Qle_trans; eassumption.
  - exfalso. apply (Qlt_not_le (spec_min spec) v); tauto.
  - exfalso. apply (Qlt_not_le _ _ Hb). eapply Qle_trans; eassumption.
  - exfalso. apply (Qlt_not_le v (spec_max spec)); tauto.
  - exfalso. apply (Qlt_not_le _ _ Hlow). assumption.
  - exfalso. apply (Qlt_not_le _ _ Hhigh). assumption.
  - apply interpolate_nonneg; [exact Hb|apply Qlt_le_weak, Hlow].
  - apply interpolate_le_100; [exact Hb|apply Qlt_le_weak, Hhigh].
Qed.

(** An NMC cell at its nominal 3.6 V is estimated half charged. *)
Lemma calculate_charge_percentage_spec_witness :
  dict_get CELL_SPECS "NMC" = Some (mkSpec 3.6 3.0 4.2 "#2196F3") /\
  exists p,
    calculate_charge_percentage 3.6 "NMC" = Some p /\
    p == 50 /\ (0 <= p /\ p <= 100) /\
    calculate_charge_percentage 3.0 "NMC" = Some 0 /\
    calculate_charge_percentage 4.2 "NMC" = Some 100.
Proof.
  split; [reflexivity|].
  destruct (calculate_charge_percentage_spec 3.6 "NMC"
              (mkSpec 3.6 3.0 4.2 "#2196F3") eq_refl)
    as (p & Hp & _ & _ & Hmid & Hrange & Hmin & Hmax).
  exists p. split; [exact Hp|]. split.
  - rewrite Hmid; [reflexivity|split; reflexivity].
  - split; [exact Hrange|]. split; [exact Hmin|exact Hmax].
Defined.

(** C9.  For a chemistry of the table (its bounds satisfy [min < max]) the
    estimate does not decrease when the voltage increases. *)
Theorem calculate_charge_percentage_monotone
    (v1 v2 p1 p2 : Q) (cell_type : string) :
  v1 <= v2 ->
  calculate_charge_percentage v1 cell_type = Some p1 ->
  calculate_charge_percentage v2 cell_type = Some p2 ->
  p1 <= p2.
Proof.
  intros Hle H1 H2.
  destruct (dict_get CELL_SPECS cell_type) as [spec|] eqn:Hspec;
    [|unfold calculate_charge_percentage in H1; rewrite Hspec in H1; discriminate].
  pose proof (CELL_SPECS_min_lt_max _ _ Hspec) as Hb.
  destruct (calculate_charge_percentage_cases v1 _ _ Hspec)
    as [[L1 E1]|[[G1 E1]|(L1 & G1 & E1)]];
    destruct (calculate_charge_percentage_cases v2 _ _ Hspec)
      as [[L2 E2]|[[G2 E2]|(L2 & G2 & E2)]];
    rewrite E1 in H1; rewrite E2 in H2;
    injection H1 as <-; injection H2 as <-;
    try discriminate; try apply Qle_refl.
  - apply interpolate_nonneg; [exact Hb|apply Qlt_le_weak, L2].
  - exfalso. apply (Qlt_not_le _ _ Hb).
    apply Qle_trans with v1; [exact G1|]. apply Qle_trans with v2; assumption.
  - exfalso. apply (Qlt_not_le _ _ G2). apply Qle_trans with v1; assumption.
  - exfalso. apply (Qlt_not_le _ _ L1). apply Qle_trans with v2; assumption.
  - apply interpolate_le_100; [exact Hb|apply Qlt_le_weak, G1].
  - apply interpolate_mono; assumption.
Qed.

(** Two LTO readings, the second above the first. *)
Lemma calculate_charge_percentage_monotone_witness :
  2.0 <= 2.5 /\
  calculate_charge_percentage 2.0 "LTO" = Some ((2.0 - 1.8) / (2.8 - 1.8) * 100) /\
  calculate_charge_percentage 2.5 "LTO" = Some ((2.5 - 1.8) / (2.8 - 1.8) * 100) /\
  (2.0 - 1.8) / (2.8 - 1.8) * 100 <= (2.5 - 1.8) / (2.8 - 1.8) * 100.
Proof.
  split; [discriminate|]. split; [reflexivity|]. split; [reflexivity|].
  apply (calculate_charge_percentage_monotone 2.0 2.5 _ _ "LTO").
  - discriminate.
  - reflexivity.
  - reflexivity.
Defined.

(** ** The telemetry generator *)

Section GeneratorLoop.

Variable current_time : Z.
Variable status : ChargingStatus.

(** What holds of every data point the loop body can build from a cell
    of the dict holds of the whole list the loop returns. *)
Lemma generate_loop_Forall (P : Sample -> Prop) :
  forall items,
    (forall cell_name cell_data g,
        In (cell_name, cell_data) items ->
        P (data_point current_time cell_name cell_data
             (fst (perturb status cell_data g)))) ->
    forall data_points g,
      Forall P data_points ->
      Forall P (fst (generate_loop current_time status items data_points g)).
Proof.
  induction items as [|[cell_name cell_data] rest IH];
    intros Hbody data_points g Hacc.
  - exact Hacc.
  - cbn [generate_loop]. unfold bind at 1.
    pose proof (Hbody cell_name cell_data g (or_introl eq_refl)) as Hpoint.
    destruct (perturb status cell_data g) as [reading g'].
    apply IH.
    + intros n c g0 Hin. apply Hbody. right. exact Hin.
    + apply Forall_app. split; [exact Hacc|].
      constructor; [exact Hpoint|constructor].
Qed.

(** One data point per configured cell. *)
Lemma generate_loop_length :
  forall items data_points g,
    List.length (fst (generate_loop current_time status items data_points g))
    = (List.length data_points + List.length items)%nat.
Proof.
  induction items as [|[cell_name cell_data] rest IH]; intros data_points g.
  - simpl. lia.
  - cbn [generate_loop]. unfold bind at 1.
    destruct (perturb status cell_data g) as [reading g'].
    rewrite IH, length_app. simpl. lia.
Qed.

End GeneratorLoop.

Lemma generate_real_time_data_length (current_time : Z) (ss : Session) (g : Rng) :
  List.length (fst (generate_real_time_data current_time ss g))
  = List.length (cells_data ss).
Proof. unfold generate_real_time_data. rewrite generate_loop_length. reflexivity. Qed.

(** The data point in terms of the reading it is built from. *)
Lemma data_point_fields (current_time : Z) (cell_name : string)
    (cell_data : CellData) (v c t : Q) :
  let s := data_point current_time cell_name cell_data (v, c, t) in
  voltage s = py_max 0 v /\
  current s = c /\
  temperature s = t /\
  capacity s = (if Qneb c 0 then Qabs (v * c) else 0).
Proof. repeat split. Qed.

Lemma perturb_advance (status : ChargingStatus) (cell_data : CellData) (g : Rng) :
  snd (perturb status cell_data g) = advance g (draws_per_cell status).
Proof. destruct status; reflexivity. Qed.

Lemma advance_advance (g : Rng) (a b : nat) :
  advance (advance g a) b = advance g (b + a).
Proof. unfold advance. cbn [stream cursor]. f_equal. lia. Qed.

Lemma advance_0 (g : Rng) : advance g 0 = g.
Proof. destruct g. reflexivity. Qed.

(** The loop builds, for the cell at position [k], the data point of the
    reading drawn after the draws of the [k] cells before it. *)
Lemma generate_loop_indexed (current_time : Z) (status : ChargingStatus) (g : Rng) :
  forall items data_points k,
    fst (generate_loop current_time status items data_points
           (advance g (k * draws_per_cell status)))
    = data_points
      ++ map (fun p => data_point current_time (fst (snd p)) (snd (snd p))
                         (reading_at status g (fst p) (snd (snd p))))
             (combine (seq k (List.length items)) items).
Proof.
  induction items as [|[cell_name cell_data] rest IH]; intros data_points k.
  - cbn [generate_loop ret fst List.length seq combine map].
    symmetry. apply app_nil_r.
  - cbn [generate_loop List.length seq combine map fst snd].
    unfold bind at 1. unfold reading_at at 1.
    pose proof (perturb_advance status cell_data
                  (advance g (k * draws_per_cell status))) as Hnext.
    rewrite advance_advance in Hnext.
    change (draws_per_cell status + k * draws_per_cell status)%nat
      with (S k * draws_per_cell status)%nat in Hnext.
    destruct (perturb status cell_data (advance g (k * draws_per_cell status)))
      as [reading g'].
    cbn [fst snd] in *. subst g'. rewrite IH.
    rewrite <- app_assoc. reflexivity.
Qed.

Lemma generate_real_time_data_indexed (current_time : Z) (ss : Session) (g : Rng) :
  fst (generate_real_time_data current_time ss g)
  = map (fun p => data_point current_time (fst (snd p)) (snd (snd p))
                    (reading_at (charging_status ss) g (fst p) (snd (snd p))))
        (indexed (cells_data ss)).
Proof.
  unfold generate_real_time_data, indexed.
  pose proof (generate_loop_indexed current_time (charging_status ss) g
                (cells_data ss) [] 0) as H.
  cbn [Nat.mul app] in H. rewrite advance_0 in H. exact H.
Qed.

Lemma Forall2_map_self {A B : Type} (R : A -> B -> Prop) (f : A -> B) (l : list A) :
  (forall a, R a (f a)) -> Forall2 R l (map f l).
Proof. intro H. induction l as [|a l IH]; cbn [map]; constructor; auto. Qed.

Lemma Forall2_map_positions {A B : Type} (R : A -> B -> Prop) (f : nat * A -> B) :
  (forall k a, R a (f (k, a))) ->
  forall l k, Forall2 R l (map f (combine (seq k (List.length l)) l)).
Proof.
  intros H. induction l as [|a l IH]; intro k;
    cbn [List.length seq combine map]; constructor; auto.
Qed.

(** C6.  Whatever the configured cells, the status and the random draws
    are, every data point of [generate_real_time_data] has a voltage
    [>= 0], and there is one data point for each configured cell. *)
Theorem generate_real_time_data_voltage_nonneg
    (current_time : Z) (ss : Session) (g : Rng) :
  Forall (fun s => 0 <= voltage s)
         (fst (generate_real_time_data current_time ss g)) /\
  List.length (fst (generate_real_time_data current_time ss g))
    = List.length (cells_data ss).
Proof.
  split; [|apply generate_real_time_data_length].
  unfold generate_real_time_data.
  apply generate_loop_Forall; [|constructor].
  intros cell_name cell_data g0 _.
  destruct (fst (perturb (charging_status ss) cell_data g0)) as [[v c] t].
  apply py_max_nonneg.
Qed.

(** A cell configured at 0 V while discharging: the perturbed voltage is
    negative and the emitted one is 0. *)
Example discharging_from_zero_volt :
  map voltage
    (fst (generate_real_time_data 0 drained_session half_draws))
  = [0].
Proof. reflexivity. Qed.

(** C7.  In the Idle status the generator yields one data point for each
    configured cell, in the order of the dict and under the name of the
    cell, and its current is exactly 0, whatever the configured current
    and the random draws are. *)
Theorem generate_real_time_data_idle_current
    (current_time : Z) (ss : Session) (g : Rng) :
  charging_status ss = Idle ->
  let samples := fst (generate_real_time_data current_time ss g) in
  List.length samples = List.length (cells_data ss) /\
  Forall2 (fun item s => cell_id s = fst item /\ current s = 0)
          (cells_data ss) samples.
Proof.
  intro Hidle. cbv zeta. split; [apply generate_real_time_data_length|].
  rewrite generate_real_time_data_indexed, Hidle. unfold indexed.
  apply Forall2_map_positions. intros k [cell_name cell_data].
  split; reflexivity.
Qed.

(** The cell configured with 2.0 A, idle: one data point, of current 0. *)
Lemma generate_real_time_data_idle_current_witness :
  charging_status idle_session = Idle /\
  cd_current (mkCell (Some "LFP") 3.2 2.0 25 1 6.4) = 2.0 /\
  map current (fst (generate_real_time_data 0 idle_session half_draws)) = [0] /\
  List.length (fst (generate_real_time_data 0 idle_session half_draws))
    = List.length (cells_data idle_session) /\
  Forall2 (fun item s => cell_id s = fst item /\ current s = 0)
          (cells_data idle_session)
          (fst (generate_real_time_data 0 idle_session half_draws)).
Proof.
  split; [reflexivity|]. split; [reflexivity|]. split; [reflexivity|].
  apply (generate_real_time_data_idle_current 0 idle_session half_draws).
  reflexivity.
Defined.

(** *** The derived capacity *)

(** The capacity of a data point is not always that of its emitted
    voltage and current: the drained cell shows 0 V and -2 A with a
    capacity of 0.2. *)
Lemma capacity_of_emitted_fails :
  exists s,
    In s (fst (generate_real_time_data 0 drained_session half_draws)) /\
    voltage s == 0 /\
    current s == -2 /\
    capacity s == 0.2 /\
    capacity_of_emitted s == 0 /\
    ~ capacity s == capacity_of_emitted s.
Proof.
  eexists. split; [left; reflexivity|].
  repeat split; try reflexivity.
  intro H. vm_compute in H. discriminate H.
Qed.

Lemma Qabs_clamped_product (v c : Q) :
  0 <= v -> Qabs (v * c) == Qabs (py_max 0 v * c).
Proof. intro H. rewrite (py_max_of_nonneg v H). reflexivity. Qed.

(** C4, as the code has it.  The generator yields one data point for each
    configured cell, in the order of the dict.  The data point of the cell
    at position [k] is built from the reading drawn for that very cell in
    this call (after the draws of the [k] cells before it): its voltage is
    the perturbed voltage [raw] of the reading clamped at 0, its current is
    the current of the reading, and its capacity is 0 when that current is
    0 and [|raw * current|] otherwise, for the voltage before the clamp.
    The capacity is that of the emitted voltage and current unless the
    clamp changed the voltage, that is unless [raw < 0]. *)
Theorem generate_real_time_data_capacity
    (current_time : Z) (ss : Session) (g : Rng) :
  Forall2
    (fun p s =>
       let reading :=
         reading_at (charging_status ss) g (fst p) (snd (snd p)) in
       let raw := fst (fst reading) in
       cell_id s = fst (snd p) /\
       voltage s = py_max 0 raw /\
       current s = snd (fst reading) /\
       capacity s = (if Qneb (current s) 0 then Qabs (raw * current s) else 0) /\
       (capacity s == capacity_of_emitted s \/ raw < 0))
    (indexed (cells_data ss))
    (fst (generate_real_time_data current_time ss g)).
Proof.
  rewrite generate_real_time_data_indexed.
  apply Forall2_map_self. intros [k [cell_name cell_data]]. cbv zeta.
  cbn [fst snd]. unfold capacity_of_emitted.
  destruct (reading_at (charging_status ss) g k cell_data) as [[v c] t].
  cbn [fst snd data_point cell_id voltage current capacity].
  do 4 (split; [reflexivity|]).
  destruct (Qlt_le_dec v 0) as [Hneg|Hpos]; [right; exact Hneg|left].
  destruct (Qneb c 0); [|reflexivity].
  apply Qabs_clamped_product, Hpos.
Qed.

(** Two drained cells while discharging, with draws that go up by 0.1:
    the second cell is perturbed by its own draws (the fourth to the
    sixth), and each capacity is that of the cell's own reading,
    [|-0.05 * -2.4| = 0.12] and [|-0.08 * -2.1| = 0.168]. *)
Example capacity_of_own_reading :
  let ss := {| cells_data := [("Cell_1", mkCell (Some "LFP") 0 2 25 1 0);
                              ("Cell_2", mkCell (Some "LFP") 0 2 25 1 0)];
               charging_status := Discharging;
               real_time_data := [] |} in
  let g := mkRng (fun n => inject_Z (Z.of_nat n) / 10) 0 in
  map (fun s => Qred (capacity s)) (fst (generate_real_time_data 0 ss g))
  = [3 # 25; 21 # 125].
Proof. vm_compute. reflexivity. Qed.

(** ** The rolling real-time buffer *)

Lemma slice_from_negative {A : Type} (k : nat) (l : list A) :
  (0 < k)%nat ->
  slice_from (- Z.of_nat k) l = skipn (List.length l - k) l.
Proof.
  intro Hk. unfold slice_from.
  destruct (Z.ltb_spec (- Z.of_nat k) 0) as [_|Hge]; [|lia].
  f_equal. lia.
Qed.

(** Python's [l[-0:]] is the whole list. *)
Example slice_from_zero : slice_from (- 0) [1; 2; 3]%nat = [1; 2; 3]%nat.
Proof. reflexivity. Qed.

Lemma keep_last_length {A : Type} (k : nat) (l : list A) :
  (List.length (keep_last k l) <= k)%nat.
Proof.
  unfold keep_last. destruct (Nat.ltb_spec k (List.length l)).
  - rewrite length_skipn. lia.
  - assumption.
Qed.

Lemma keep_last_suffix {A : Type} (k : nat) (l : list A) :
  l = firstn (List.length l - k) l ++ keep_last k l /\
  List.length (firstn (List.length l - k) l) = (List.length l - k)%nat.
Proof.
  unfold keep_last. split.
  - destruct (Nat.ltb_spec k (List.length l)) as [Hlt|Hge].
    + symmetry. apply firstn_skipn.
    + replace (List.length l - k)%nat with 0%nat by lia. reflexivity.
  - rewrite length_firstn. lia.
Qed.

(** One rendering of the Control Panel with at least one cell configured. *)
Lemma real_time_monitoring_step (current_time : Z) (ss : Session) (g : Rng) :
  (0 < List.length (cells_data ss))%nat ->
  fst (real_time_monitoring current_time ss g) =
  {| cells_data := cells_data ss;
     charging_status := charging_status ss;
     real_time_data :=
       keep_last (60 * List.length (cells_data ss))
         (real_time_data ss ++ fst (generate_real_time_data current_time ss g)) |}.
Proof.
  intro Hn. unfold real_time_monitoring.
  destruct (cells_data ss) as [|cell rest] eqn:Hcells; [simpl in Hn; lia|].
  rewrite <- Hcells in *. unfold bind.
  destruct (generate_real_time_data current_time ss g) as [current_data g'].
  cbn [fst ret]. f_equal. unfold keep_last.
  set (extended := real_time_data ss ++ current_data).
  set (n := List.length (cells_data ss)) in *.
  replace (60 * Z.of_nat n)%Z with (Z.of_nat (60 * n)) by lia.
  destruct (Z.gtb_spec (Z.of_nat (List.length extended)) (Z.of_nat (60 * n)))
    as [Hgt|Hle];
    destruct (Nat.ltb_spec (60 * n) (List.length extended)) as [Hlt|Hge];
    try lia; [|reflexivity].
  apply slice_from_negative. lia.
Qed.

(** With no cell configured the page leaves the session alone. *)
Lemma real_time_monitoring_no_cell (current_time : Z) (ss : Session) (g : Rng) :
  cells_data ss = [] -> real_time_monitoring current_time ss g = (ss, g).
Proof. intro H. unfold real_time_monitoring. rewrite H. reflexivity. Qed.

(** C8.  Whatever the session was before (so after any sequence of earlier
    ticks), one tick of the Control Panel with [n >= 1] configured cells
    appends [n] data points, one per cell, and leaves at most [60 * n]
    entries in the buffer; what it drops is a prefix of the extended
    buffer, the oldest entries of the whole buffer, exactly as many as
    exceed [60 * n]. *)
Theorem real_time_monitoring_bounded_fifo
    (current_time : Z) (ss : Session) (g : Rng) :
  (0 < List.length (cells_data ss))%nat ->
  let current_data := fst (generate_real_time_data current_time ss g) in
  let ss' := fst (real_time_monitoring current_time ss g) in
  List.length current_data = List.length (cells_data ss) /\
  cells_data ss' = cells_data ss /\
  (List.length (real_time_data ss') <= 60 * List.length (cells_data ss))%nat /\
  exists evicted,
    real_time_data ss ++ current_data = evicted ++ real_time_data ss' /\
    List.length evicted =
      (List.length (real_time_data ss ++ current_data)
       - 60 * List.length (cells_data ss))%nat.
Proof.
  intros Hn current_data ss'. subst ss'.
  rewrite (real_time_monitoring_step _ _ _ Hn). cbn [cells_data real_time_data].
  split; [apply generate_real_time_data_length|].
  split; [reflexivity|].
  split; [apply keep_last_length|].
  eexists. apply keep_last_suffix.
Qed.

(** On the full buffer the tick appends one point and drops the oldest. *)
Lemma real_time_monitoring_bounded_fifo_witness :
  (0 < List.length (cells_data full_session))%nat /\
  (List.length
     (real_time_data (fst (real_time_monitoring 7 full_session half_draws)))
   <= 60 * 1)%nat /\
  exists evicted,
    real_time_data full_session
      ++ fst (generate_real_time_data 7 full_session half_draws)
    = evicted
      ++ real_time_data (fst (real_time_monitoring 7 full_session half_draws)) /\
    List.length evicted = 1%nat.
Proof.
  split; [simpl; lia|].
  destruct (real_time_monitoring_bounded_fifo 7 full_session half_draws)
    as (_ & _ & Hbound & evicted & Hsplit & Hlen); [simpl; lia|].
  split; [exact Hbound|].
  exists evicted. split; [exact Hsplit|]. rewrite Hlen. reflexivity.
Defined.

(** *** The bound along a whole session *)

Lemma run_app (events1 events2 : list Event) (ss : Session) (g : Rng) :
  run (events1 ++ events2) ss g =
  let (ss', g') := run events1 ss g in run events2 ss' g'.
Proof.
  revert ss g. induction events1 as [|e rest IH]; intros ss g.
  - reflexivity.
  - cbn [app run]. unfold bind.
    destruct (handle e ss g) as [ss1 g1]. apply IH.
Qed.

Lemma handle_empty_while_unconfigured (e : Event) (ss : Session) (g : Rng) :
  well_formed_event e ->
  empty_while_unconfigured ss ->
  empty_while_unconfigured (fst (handle e ss g)).
Proof.
  unfold empty_while_unconfigured.
  destruct e; cbn [handle well_formed_event]; intros Hwf Hinv; try exact Hinv.
  - cbn. intro H. contradiction.
  - destruct (cells_data ss) as [|cell rest] eqn:Hcells.
    + rewrite real_time_monitoring_no_cell by exact Hcells.
      cbn [fst]. rewrite Hcells. exact Hinv.
    + rewrite real_time_monitoring_step by (rewrite Hcells; simpl; lia).
      cbn [cells_data]. rewrite Hcells. discriminate.
Qed.

Lemma run_empty_while_unconfigured (events : list Event) :
  Forall well_formed_event events ->
  forall ss g,
    empty_while_unconfigured ss ->
    empty_while_unconfigured (fst (run events ss g)).
Proof.
  induction 1 as [|e rest Hwf _ IH]; intros ss g Hinv.
  - exact Hinv.
  - cbn [run]. unfold bind.
    pose proof (handle_empty_while_unconfigured e ss g Hwf Hinv) as Hstep.
    destruct (handle e ss g) as [ss1 g1]. apply IH. exact Hstep.
Qed.

(** From the first page load on, through any saves, button presses and
    earlier ticks, the buffer is within [60 * (number of cells)] after each
    rendering of the Control Panel. *)
Lemma run_control_panel_bounded (events : list Event) (current_time : Z) (g : Rng) :
  Forall well_formed_event events ->
  let ss := fst (run (events ++ [ControlPanel current_time]) initial_session g) in
  (List.length (real_time_data ss) <= 60 * List.length (cells_data ss))%nat.
Proof.
  intros Hwf. cbv zeta. rewrite run_app.
  pose proof (run_empty_while_unconfigured events Hwf initial_session g
                (fun _ => eq_refl)) as Hinv.
  destruct (run events initial_session g) as [ss1 g1]. cbn [fst] in Hinv.
  cbn [run handle]. unfold bind.
  destruct (cells_data ss1) as [|cell rest] eqn:Hcells.
  - rewrite real_time_monitoring_no_cell by exact Hcells.
    cbn [ret fst]. rewrite (Hinv Hcells). simpl. lia.
  - pose proof (real_time_monitoring_step current_time ss1 g1) as Hstep.
    destruct (real_time_monitoring current_time ss1 g1) as [ss2 g2].
    cbn [ret fst] in *. rewrite Hstep by (rewrite Hcells; simpl; lia).
    cbn [real_time_data cells_data]. apply keep_last_length.
Qed.

(** ** The Setup page *)

Lemma cell_name_of_inj (i j : nat) : cell_name_of i = cell_name_of j -> i = j.
Proof.
  unfold cell_name_of. cbn [String.append]. intros [= H].
  apply (f_equal DecimalString.NilEmpty.uint_of_string) in H.
  rewrite !DecimalString.NilEmpty.usu in H. injection H as H.
  apply DecimalNat.Unsigned.to_uint_inj in H. lia.
Qed.

Lemma cell_names_NoDup (indices : list nat) :
  NoDup indices -> NoDup (map cell_name_of indices).
Proof.
  induction 1 as [|i l Hnotin _ IH]; cbn [map]; constructor; [|exact IH].
  intro Hin. apply in_map_iff in Hin. destruct Hin as (j & Hj & Hin).
  apply cell_name_of_inj in Hj. subst j. contradiction.
Qed.

Section Dict.

Context {V : Type}.

Lemma dict_get_set_same (d : dict V) (k : string) (v : V) :
  dict_get (dict_set d k v) k = Some v.
Proof.
  induction d as [|[k' v'] d IH]; cbn [dict_set dict_get].
  - rewrite String.eqb_refl. reflexivity.
  - destruct (String.eqb k' k) eqn:E; cbn [dict_get]; rewrite E.
    + reflexivity.
    + exact IH.
Qed.

Lemma dict_get_set_other (d : dict V) (k k' : string) (v : V) :
  k <> k' -> dict_get (dict_set d k v) k' = dict_get d k'.
Proof.
  intro Hne. induction d as [|[k0 v0] d IH]; cbn [dict_set dict_get].
  - destruct (String.eqb_spec k k'); [contradiction|reflexivity].
  - destruct (String.eqb_spec k0 k) as [->|Hk0]; cbn [dict_get].
    + destruct (String.eqb_spec k k'); [contradiction|reflexivity].
    + destruct (String.eqb k0 k'); [reflexivity|exact IH].
Qed.

Lemma dict_get_In (d : dict V) (k : string) (v : V) :
  dict_get d k = Some v -> In (k, v) d.
Proof.
  induction d as [|[k' v'] d IH]; cbn [dict_get]; [discriminate|].
  destruct (String.eqb_spec k' k) as [->|_].
  - intros [= ->]. left. reflexivity.
  - intro H. right. apply IH, H.
Qed.

Lemma dict_get_None (d : dict V) (k : string) :
  dict_get d k = None <-> ~ In k (map fst d).
Proof.
  induction d as [|[k' v'] d IH]; cbn [dict_get map fst In]; [tauto|].
  destruct (String.eqb_spec k' k) as [->|Hne].
  - split; [discriminate|]. intro H. exfalso. apply H. left. reflexivity.
  - rewrite IH. tauto.
Qed.

(** A new key is appended; an existing key keeps its place. *)
Lemma dict_set_keys (d : dict V) (k : string) (v : V) :
  map fst (dict_set d k v) =
  match dict_get d k with
  | Some _ => map fst d
  | None => map fst d ++ [k]
  end.
Proof.
  induction d as [|[k' v'] d IH]; cbn [dict_set dict_get map fst app].
  - reflexivity.
  - destruct (String.eqb_spec k' k) as [->|_]; cbn [map fst].
    + reflexivity.
    + rewrite IH. destruct (dict_get d k); reflexivity.
Qed.

Lemma dict_set_In (d : dict V) (k k0 : string) (v v0 : V) :
  In (k0, v0) (dict_set d k v) -> (k0, v0) = (k, v) \/ In (k0, v0) d.
Proof.
  induction d as [|[k' v'] d IH]; cbn [dict_set In].
  - intros [H|[]]. left. symmetry. exact H.
  - destruct (String.eqb_spec k' k) as [->|_]; cbn [In].
    + intros [H|H]; [left; symmetry; exact H|right; right; exact H].
    + intros [H|H]; [right; left; exact H|].
      destruct (IH H) as [E|E]; [left; exact E|right; right; exact E].
Qed.

End Dict.

Lemma list_index_Some (l : list string) (x : string) :
  In x l <-> exists i, list_index l x = Some i.
Proof.
  induction l as [|y l IH]; cbn [list_index In].
  - split; [intros []|intros [i H]; discriminate].
  - destruct (String.eqb_spec y x) as [->|Hne].
    + split; [eexists; reflexivity|intros _; left; reflexivity].
    + rewrite IH. split.
      * intros [H|[i Hi]]; [contradiction|]. rewrite Hi. eexists. reflexivity.
      * intros [i Hi]. right. destruct (list_index l x); [|discriminate].
        eexists. reflexivity.
Qed.

(** The select box offers exactly the chemistries of the table. *)
Lemma cell_type_options_table (ty : string) :
  In ty cell_type_options <-> exists spec, dict_get CELL_SPECS ty = Some spec.
Proof.
  split.
  - intros [<-|[<-|[<-|[]]]]; eexists; reflexivity.
  - intros [spec H]. apply CELL_SPECS_cases in H.
    destruct H as [[-> _]|[[-> _]|[-> _]]]; cbn; tauto.
Qed.

Lemma configure_cell_Some (session_cells : dict CellData) (w : CellWidgets)
    (cell_index : nat) (d : dict CellData) :
  (forall existing_data,
      dict_get session_cells (cell_name_of cell_index) = Some existing_data ->
      In (type_of existing_data) cell_type_options) ->
  In (w_type w) cell_type_options ->
  configure_cell session_cells w cell_index d =
  Some (dict_set d (cell_name_of cell_index) (stored_cell w)).
Proof.
  intros Hsaved Hw. unfold configure_cell.
  assert (Hidx : exists i,
             list_index cell_type_options
               match dict_get session_cells (cell_name_of cell_index) with
               | Some existing_data => type_of existing_data
               | None => "LFP"%string
               end = Some i).
  { apply list_index_Some.
    destruct (dict_get session_cells (cell_name_of cell_index)) as [e|].
    - apply Hsaved. reflexivity.
    - left. reflexivity. }
  destruct Hidx as [i ->].
  apply cell_type_options_table in Hw. destruct Hw as [spec ->]. reflexivity.
Qed.

(** [configure_cell] stores under ["Cell_<index + 1>"] the values of the
    widgets with the capacity [|voltage * current|], which is not negative,
    and leaves every other key of the dict as it was. *)
Theorem configure_cell_stores (session_cells : dict CellData) (w : CellWidgets)
    (cell_index : nat) (d d' : dict CellData) :
  configure_cell session_cells w cell_index d = Some d' ->
  (exists cell_data,
      dict_get d' (cell_name_of cell_index) = Some cell_data /\
      cd_type cell_data = Some (w_type w) /\
      cd_voltage cell_data = w_voltage w /\
      cd_current cell_data = w_current w /\
      cd_temperature cell_data = w_temperature w /\
      cd_time cell_data = w_time w /\
      cd_capacity cell_data = Qabs (cd_voltage cell_data * cd_current cell_data) /\
      0 <= cd_capacity cell_data) /\
  (forall k, k <> cell_name_of cell_index -> dict_get d' k = dict_get d k).
Proof.
  unfold configure_cell.
  destruct (list_index _ _); [|discriminate].
  destruct (dict_get CELL_SPECS (w_type w)); [|discriminate].
  intros [= <-]. split.
  - eexists. split; [apply dict_get_set_same|].
    cbn [cd_type cd_voltage cd_current cd_temperature cd_time cd_capacity].
    do 6 (split; [reflexivity|]).
    exact (Qabs_nonneg (w_voltage w * w_current w)).
  - intros k Hk. apply dict_get_set_other. congruence.
Qed.

Lemma configure_cell_stores_witness :
  configure_cell [] (mkWidgets "NMC" 3.6 2 25 1) 0 [] =
    Some [("Cell_1", mkCell (Some "NMC") 3.6 2 25 1 (Qabs (3.6 * 2)))] /\
  exists cell_data,
    dict_get [("Cell_1", mkCell (Some "NMC") 3.6 2 25 1 (Qabs (3.6 * 2)))]
      "Cell_1" = Some cell_data /\
    0 <= cd_capacity cell_data.
Proof.
  split; [reflexivity|].
  destruct (configure_cell_stores [] (mkWidgets "NMC" 3.6 2 25 1) 0 []
              [("Cell_1", mkCell (Some "NMC") 3.6 2 25 1 (Qabs (3.6 * 2)))]
              eq_refl)
    as [(cell_data & Hget & _ & _ & _ & _ & _ & _ & Hcap) _].
  exists cell_data. split; [exact Hget|exact Hcap].
Defined.

(** [configure_cell] raises exactly when the chemistry saved for that cell
    is not an option of the select box ([ValueError] of [.index]) or the
    selected chemistry is not a key of [CELL_SPECS] ([KeyError]). *)
Theorem configure_cell_raises (session_cells : dict CellData) (w : CellWidgets)
    (cell_index : nat) (d : dict CellData) :
  configure_cell session_cells w cell_index d = None <->
  (exists existing_data,
      dict_get session_cells (cell_name_of cell_index) = Some existing_data /\
      ~ In (type_of existing_data) cell_type_options) \/
  dict_get CELL_SPECS (w_type w) = None.
Proof.
  unfold configure_cell.
  destruct (dict_get session_cells (cell_name_of cell_index)) as [e|] eqn:He.
  - destruct (list_index cell_type_options (type_of e)) as [i|] eqn:Hi.
    + assert (Hin : In (type_of e) cell_type_options)
        by (apply list_index_Some; eexists; exact Hi).
      destruct (dict_get CELL_SPECS (w_type w)) eqn:Hs.
      * split; [discriminate|].
        intros [(e' & [= <-] & Hno)|H]; [contradiction|discriminate].
      * split; [right; reflexivity|reflexivity].
    + split; [|reflexivity]. intros _. left. exists e. split; [reflexivity|].
      intro Hin. apply list_index_Some in Hin. destruct Hin as [i' Hi'].
      congruence.
  - change (list_index cell_type_options "LFP") with (Some 0%nat). cbv iota.
    destruct (dict_get CELL_SPECS (w_type w)) eqn:Hs.
    + split; [discriminate|].
      intros [(e' & He' & _)|H]; discriminate.
    + split; [right; reflexivity|reflexivity].
Qed.

Lemma known_types_get (cells : dict CellData) (k : string) (e : CellData) :
  known_types cells -> dict_get cells k = Some e ->
  In (type_of e) cell_type_options.
Proof.
  intros Hk Hget. apply dict_get_In in Hget.
  unfold known_types in Hk. rewrite Forall_forall in Hk.
  apply (Hk (k, e) Hget).
Qed.

Section ConfigureCells.

Variable session_cells : dict CellData.
Variable widgets : nat -> CellWidgets.
Hypothesis saved_known : known_types session_cells.

Lemma configure_cells_seq (m : nat) :
  forall a d,
    (forall i, (i < a + m)%nat -> In (w_type (widgets i)) cell_type_options) ->
    configured_up_to widgets a d ->
    exists d',
      configure_cells session_cells widgets (seq a m) d = Some d' /\
      configured_up_to widgets (a + m) d'.
Proof.
  induction m as [|m IH]; intros a d Hw Hd.
  - exists d. split; [reflexivity|]. rewrite Nat.add_0_r. exact Hd.
  - cbn [seq configure_cells].
    rewrite configure_cell_Some;
      [|intros e He; eapply known_types_get; eassumption|apply Hw; lia].
    destruct Hd as (Hkeys & Hget & Hall).
    assert (Hfresh : dict_get d (cell_name_of a) = None).
    { apply dict_get_None. rewrite Hkeys. intro Hin.
      apply in_map_iff in Hin. destruct Hin as (j & Hj & Hin).
      apply cell_name_of_inj in Hj. apply in_seq in Hin. lia. }
    destruct (IH (S a) (dict_set d (cell_name_of a) (stored_cell (widgets a))))
      as (d' & Hrun & Hd').
    + intros i Hi. apply Hw. lia.
    + split; [|split].
      * rewrite dict_set_keys, Hfresh, Hkeys, seq_S, map_app. reflexivity.
      * intros i Hi. destruct (Nat.eq_dec i a) as [->|Hne].
        -- apply dict_get_set_same.
        -- rewrite dict_get_set_other.
           ++ apply Hget. lia.
           ++ intro E. apply cell_name_of_inj in E. congruence.
      * apply Forall_forall. intros [k v] Hin.
        apply dict_set_In in Hin. destruct Hin as [E|Hin].
        -- exists a. split; [lia|exact E].
        -- rewrite Forall_forall in Hall.
           destruct (Hall _ Hin) as (i & Hi & E). exists i. split; [lia|exact E].
    + exists d'. split; [exact Hrun|].
      replace (a + S m)%nat with (S a + m)%nat by lia. exact Hd'.
Qed.

End ConfigureCells.

(** The Setup page with "Save Configuration" pressed.  When the chemistries
    saved before and the selected ones are options of the select box, the
    page does not raise; the saved dict has exactly [num_cells] cells, named
    Cell_1 .. Cell_<num_cells> in this order, each with the values of its
    widgets; every other name is gone (the dict is replaced, not merged);
    the status and the real-time buffer are left alone. *)
Theorem setup_page_save (ss : Session) (num_cells : nat)
    (widgets : nat -> CellWidgets) :
  known_types (cells_data ss) ->
  (forall i, (i < num_cells)%nat -> In (w_type (widgets i)) cell_type_options) ->
  exists ss',
    setup_page ss num_cells widgets true = Some ss' /\
    map fst (cells_data ss') = map cell_name_of (seq 0 num_cells) /\
    List.length (cells_data ss') = num_cells /\
    NoDup (map fst (cells_data ss')) /\
    (forall i, (i < num_cells)%nat ->
       dict_get (cells_data ss') (cell_name_of i) = Some (stored_cell (widgets i))) /\
    (forall k, ~ In k (map cell_name_of (seq 0 num_cells)) ->
       dict_get (cells_data ss') k = None) /\
    known_types (cells_data ss') /\
    charging_status ss' = charging_status ss /\
    real_time_data ss' = real_time_data ss.
Proof.
  intros Hsaved Hw.
  destruct (configure_cells_seq (cells_data ss) widgets Hsaved num_cells 0 [])
    as (d' & Hrun & Hkeys & Hget & Hall).
  - exact Hw.
  - split; [reflexivity|]. split; [intros i Hi; lia|constructor].
  - cbn [Nat.add] in *. unfold setup_page. rewrite Hrun.
    eexists. split; [reflexivity|]. cbn [cells_data charging_status real_time_data].
    split; [exact Hkeys|].
    split; [rewrite <- (length_map fst), Hkeys, length_map, length_seq; reflexivity|].
    split.
    { rewrite Hkeys. apply cell_names_NoDup, seq_NoDup. }
    split; [exact Hget|].
    split; [intros k Hk; apply dict_get_None; rewrite Hkeys; exact Hk|].
    split; [|split; reflexivity].
    unfold known_types. eapply Forall_impl; [|exact Hall].
    intros [k v] (i & Hi & [= -> ->]). cbn. apply Hw, Hi.
Qed.

(** Two cells saved from the first page load. *)
Lemma setup_page_save_witness :
  known_types (cells_data initial_session) /\
  (forall i, (i < 2)%nat ->
     In (w_type ((fun _ => mkWidgets "LTO" 2.4 2 25 1) i)) cell_type_options) /\
  exists ss',
    setup_page initial_session 2 (fun _ => mkWidgets "LTO" 2.4 2 25 1) true
      = Some ss' /\
    map fst (cells_data ss') = ["Cell_1"; "Cell_2"] /\
    List.length (cells_data ss') = 2%nat.
Proof.
  assert (H1 : known_types (cells_data initial_session)) by constructor.
  assert (H2 : forall i, (i < 2)%nat ->
             In (w_type ((fun _ => mkWidgets "LTO" 2.4 2 25 1) i))
                cell_type_options) by (intros; cbn; tauto).
  split; [exact H1|]. split; [exact H2|].
  destruct (setup_page_save initial_session 2
              (fun _ => mkWidgets "LTO" 2.4 2 25 1) H1 H2)
    as (ss' & Hrun & Hkeys & Hlen & _).
  exists ss'. split; [exact Hrun|]. split; [exact Hkeys|exact Hlen].
Defined.

(** With more than nine cells the names go on in decimal. *)
Example cell_name_of_ten : cell_name_of 9 = "Cell_10".
Proof. reflexivity. Qed.

(** ** The Dashboard page *)

Lemma get_safety_warnings_nil (cell_data : CellData) :
  get_safety_warnings (cd_voltage cell_data) (cd_current cell_data)
    (cd_temperature cell_data) (type_of cell_data) = Some [] <->
  within_limits cell_data.
Proof.
  rewrite get_safety_warnings_checks. unfold within_limits.
  destruct (dict_get CELL_SPECS (type_of cell_data)) as [spec|].
  - split.
    + intros [= H]. apply app_eq_nil in H. destruct H as [Hv H].
      apply app_eq_nil in H. destruct H as [Hi Ht].
      exists spec. split; [reflexivity|].
      split; [apply voltage_check_nil, Hv|].
      split; [apply current_check_nil, Hi|apply temperature_check_nil, Ht].
    + intros (spec' & [= <-] & Hv & Hi & Ht).
      apply voltage_check_nil in Hv. apply current_check_nil in Hi.
      apply temperature_check_nil in Ht. rewrite Hv, Hi, Ht. reflexivity.
  - split; [discriminate|]. intros (spec' & H & _). discriminate.
Qed.

Lemma get_safety_warnings_known (v i t : Q) (ty : string) :
  In ty cell_type_options -> exists warnings, get_safety_warnings v i t ty = Some warnings.
Proof.
  intro H. apply cell_type_options_table in H. destruct H as [spec H].
  rewrite get_safety_warnings_checks, H. eexists. reflexivity.
Qed.

Lemma all_warnings_loop_spec (items : dict CellData) :
  known_types items ->
  forall acc,
  exists lines,
    all_warnings_loop items acc = Some (acc ++ lines) /\
    (lines = [] <-> Forall (fun item => within_limits (snd item)) items) /\
    (List.length lines <= 3 * List.length items)%nat /\
    (forall cell_name w,
        In (cell_name, w) lines <->
        exists cell_data warnings,
          In (cell_name, cell_data) items /\
          warnings_of cell_data = Some warnings /\ In w warnings).
Proof.
  induction 1 as [|[cell_name cell_data] rest Hty _ IH]; intros acc.
  - exists []. cbn [all_warnings_loop]. rewrite app_nil_r.
    split; [reflexivity|]. split; [split; [constructor|reflexivity]|].
    split; [simpl; lia|]. intros n w. split; [intros []|].
    intros (cd & ws & [] & _).
  - cbn [all_warnings_loop]. cbn [snd] in Hty.
    destruct (get_safety_warnings_known (cd_voltage cell_data)
                (cd_current cell_data) (cd_temperature cell_data) _ Hty)
      as [warnings Hw].
    rewrite Hw.
    destruct (IH (acc ++ map (fun w => (cell_name, w)) warnings))
      as (lines & Hrun & Hnil & Hlen & Hin).
    exists (map (fun w => (cell_name, w)) warnings ++ lines).
    split; [rewrite Hrun, app_assoc; reflexivity|].
    split; [|split].
    + split.
      * intro H. apply app_eq_nil in H. destruct H as [Hm Hl].
        constructor; [|apply Hnil, Hl].
        cbn [snd]. apply get_safety_warnings_nil.
        destruct warnings; [exact Hw|discriminate].
      * intro H. inversion H as [|x l Hcell Hrest]; subst.
        cbn [snd] in Hcell. apply get_safety_warnings_nil in Hcell.
        rewrite Hcell in Hw. injection Hw as <-.
        cbn [map app]. apply Hnil, Hrest.
    + rewrite length_app, length_map. cbn [List.length].
      pose proof (get_safety_warnings_length _ _ _ _ _ Hw). lia.
    + intros n w. rewrite in_app_iff, Hin. split.
      * intros [H|(cd & ws & Hcd & Hws & Hwin)].
        -- apply in_map_iff in H. destruct H as (w' & [= <- <-] & Hw').
           exists cell_data, warnings. split; [left; reflexivity|].
           split; [exact Hw|exact Hw'].
        -- exists cd, ws. split; [right; exact Hcd|]. split; assumption.
      * intros (cd & ws & [[= <- <-]|Hcd] & Hws & Hwin).
        -- left. unfold warnings_of in Hws. rewrite Hw in Hws.
           injection Hws as <-. apply in_map. exact Hwin.
        -- right. exists cd, ws. split; [exact Hcd|]. split; assumption.
Qed.

(** The Safety Warnings panel of the Dashboard.  When every configured
    cell has a chemistry of the select box the panel does not raise; it
    lists exactly the warnings of the configured cells, each under the
    name of its cell, at most three per cell. *)
Theorem all_warnings_exact (ss : Session) :
  known_types (cells_data ss) ->
  exists lines,
    all_warnings ss = Some lines /\
    (List.length lines <= 3 * List.length (cells_data ss))%nat /\
    (forall cell_name w,
        In (cell_name, w) lines <->
        exists cell_data warnings,
          In (cell_name, cell_data) (cells_data ss) /\
          get_safety_warnings (cd_voltage cell_data) (cd_current cell_data)
            (cd_temperature cell_data) (type_of cell_data) = Some warnings /\
          In w warnings).
Proof.
  intro Hk. unfold all_warnings.
  destruct (all_warnings_loop_spec _ Hk []) as (lines & Hrun & _ & Hlen & Hin).
  exists lines. split; [exact Hrun|]. split; [exact Hlen|exact Hin].
Qed.

(** The panel reports "All systems operating normally" exactly when every
    configured cell has its voltage within the bounds of its chemistry, a
    current of at most 10 A in absolute value and a temperature between 0
    and 45 degrees; with no cell configured it reports so. *)
Theorem operating_normally_iff (ss : Session) :
  known_types (cells_data ss) ->
  exists b,
    operating_normally ss = Some b /\
    (b = true <->
     Forall (fun item => within_limits (snd item)) (cells_data ss)).
Proof.
  intro Hk. unfold operating_normally, all_warnings.
  destruct (all_warnings_loop_spec _ Hk []) as (lines & -> & Hnil & _).
  cbn [app]. destruct lines as [|line lines].
  - exists true. split; [reflexivity|]. split; [intros _; apply Hnil; reflexivity|reflexivity].
  - exists false. split; [reflexivity|]. split; [discriminate|].
    intro H. apply Hnil in H. discriminate.
Qed.

Lemma operating_normally_iff_witness :
  known_types (cells_data drained_session) /\
  exists b,
    operating_normally drained_session = Some b /\
    (b = true <->
     Forall (fun item => within_limits (snd item)) (cells_data drained_session)).
Proof.
  assert (H : known_types (cells_data drained_session)).
  { repeat constructor. }
  split; [exact H|]. exact (operating_normally_iff drained_session H).
Defined.

Lemma all_warnings_exact_witness :
  known_types (cells_data drained_session) /\
  exists lines,
    all_warnings drained_session = Some lines /\
    (List.length lines <= 3 * 1)%nat.
Proof.
  assert (H : known_types (cells_data drained_session)).
  { repeat constructor. }
  split; [exact H|].
  destruct (all_warnings_exact drained_session H) as (lines & Hrun & Hlen & _).
  exists lines. split; [exact Hrun|exact Hlen].
Defined.

(** The drained cell is reported for undervoltage. *)
Example drained_cell_warning :
  all_warnings drained_session =
    Some [("Cell_1", (WARNING, Undervoltage 0 2.8))] /\
  operating_normally drained_session = Some false.
Proof. split; reflexivity. Qed.

Lemma calculate_charge_percentage_range (v p : Q) (ty : string) :
  calculate_charge_percentage v ty = Some p -> 0 <= p /\ p <= 100.
Proof.
  intro H.
  destruct (dict_get CELL_SPECS ty) as [spec|] eqn:Hspec;
    [|unfold calculate_charge_percentage in H; rewrite Hspec in H; discriminate].
  pose proof (CELL_SPECS_min_lt_max _ _ Hspec) as Hb.
  destruct (calculate_charge_percentage_cases v _ _ Hspec)
    as [[_ E]|[[_ E]|(L & G & E)]]; rewrite E in H; injection H as <-.
  - split; discriminate.
  - split; [discriminate|apply Qle_refl].
  - split.
    + apply interpolate_nonneg; [exact Hb|apply Qlt_le_weak, L].
    + apply interpolate_le_100; [exact Hb|apply Qlt_le_weak, G].
Qed.

Lemma calculate_charge_percentage_known (v : Q) (ty : string) :
  In ty cell_type_options -> exists p, calculate_charge_percentage v ty = Some p.
Proof.
  intro H. apply cell_type_options_table in H. destruct H as [spec H].
  destruct (calculate_charge_percentage_cases v _ _ H)
    as [[_ E]|[[_ E]|(_ & _ & E)]]; eexists; exact E.
Qed.

Lemma nth_error_columns (m j : nat) :
  (j < m)%nat -> nth_error (seq 0 m) j = Some j.
Proof.
  intro H. rewrite (nth_error_nth' _ 0%nat) by (rewrite length_seq; exact H).
  rewrite seq_nth by exact H. reflexivity.
Qed.

Lemma column_in_range (idx n : nat) :
  (idx < n)%nat -> (idx mod 4 < Nat.min 4 n)%nat.
Proof.
  intro H. destruct (Nat.le_gt_cases 4 n) as [Hge|Hlt].
  - rewrite Nat.min_l by exact Hge. apply Nat.mod_upper_bound. discriminate.
  - rewrite Nat.min_r by lia. rewrite Nat.mod_small by lia. exact H.
Qed.

Lemma cells_overview_loop_spec (m : nat) (items : dict CellData) :
  known_types items ->
  forall idx acc,
    (forall k, (k < List.length items)%nat -> ((idx + k) mod 4 < m)%nat) ->
    exists cards,
      cells_overview_loop (seq 0 m) idx items acc = Some (acc ++ cards) /\
      List.length cards = List.length items /\
      (forall k item, nth_error items k = Some item ->
         exists card, nth_error cards k = Some card /\ card_for (idx + k) item card).
Proof.
  induction 1 as [|[cell_name cell_data] rest Hty _ IH]; intros idx acc Hcols.
  - exists []. cbn [cells_overview_loop]. rewrite app_nil_r.
    split; [reflexivity|]. split; [reflexivity|].
    intros k item H. destruct k; discriminate.
  - cbn [cells_overview_loop]. cbn [snd] in Hty.
    pose proof (Hcols 0%nat ltac:(cbn; lia)) as H0. rewrite Nat.add_0_r in H0.
    rewrite (nth_error_columns _ _ H0).
    destruct (calculate_charge_percentage_known (cd_voltage cell_data) _ Hty)
      as [p Hp].
    rewrite Hp.
    match goal with
    | |- context [cells_overview_loop _ _ _ (acc ++ [?c])] => set (card := c)
    end.
    destruct (IH (S idx) (acc ++ [card])) as (cards & Hrun & Hlen & Hnth).
    { intros k Hk. replace (S idx + k)%nat with (idx + S k)%nat by lia.
      apply Hcols. cbn. lia. }
    exists (card :: cards).
    split; [rewrite Hrun, <- app_assoc; reflexivity|].
    split; [cbn; rewrite Hlen; reflexivity|].
    intros k item Hk. destruct k as [|k].
    + injection Hk as <-. exists card. split; [reflexivity|].
      rewrite Nat.add_0_r. unfold card_for, card. cbn.
      do 5 (split; [reflexivity|]). split; [exact Hp|].
      split; [|reflexivity].
      apply (calculate_charge_percentage_range _ _ _ Hp).
    + cbn [nth_error] in Hk |- *. destruct (Hnth k item Hk) as (c & Hc & Hfor).
      exists c. split; [exact Hc|].
      replace (idx + S k)%nat with (S idx + k)%nat by lia. exact Hfor.
Qed.

(** The Cells Overview of the Dashboard.  When every configured cell has a
    chemistry of the select box, neither [cols[idx % 4]] nor the charge
    estimate raises; there is one card per cell, in the order of the dict,
    the card of the cell at position [k] in column [k mod 4], with a charge
    within [0, 100] and the colour of that charge. *)
Theorem cells_overview_cards (ss : Session) :
  known_types (cells_data ss) ->
  exists cards,
    cells_overview ss = Some cards /\
    List.length cards = List.length (cells_data ss) /\
    (forall k item, nth_error (cells_data ss) k = Some item ->
       exists card, nth_error cards k = Some card /\ card_for k item card).
Proof.
  intro Hk. unfold cells_overview.
  destruct (cells_data ss) as [|item rest] eqn:Hcells.
  - exists []. split; [reflexivity|]. split; [reflexivity|].
    intros k it H. destruct k; discriminate.
  - rewrite <- Hcells in *.
    destruct (cells_overview_loop_spec
                (Nat.min 4 (List.length (cells_data ss))) _ Hk 0 [])
      as (cards & Hrun & Hlen & Hnth).
    + intros k Hlt. apply column_in_range. exact Hlt.
    + exists cards. split; [exact Hrun|]. split; [exact Hlen|exact Hnth].
Qed.

Lemma cells_overview_cards_witness :
  known_types (cells_data idle_session) /\
  exists cards,
    cells_overview idle_session = Some cards /\
    List.length cards = 1%nat.
Proof.
  assert (H : known_types (cells_data idle_session)).
  { repeat constructor. }
  split; [exact H|].
  destruct (cells_overview_cards idle_session H) as (cards & Hrun & Hlen & _).
  exists cards. split; [exact Hrun|exact Hlen].
Defined.

Lemma charge_color_cases (p : Q) :
  (80 < p /\ charge_color p = "#4CAF50") \/
  (40 < p /\ p <= 80 /\ charge_color p = "#FF9800") \/
  (p <= 40 /\ charge_color p = "#F44336").
Proof.
  unfold charge_color.
  destruct (Qgtb p 80) eqn:H80; [|destruct (Qgtb p 40) eqn:H40]; tests_to_props.
  - left. split; [exact H80|reflexivity].
  - right. left. repeat split; assumption.
  - right. right. split; [exact H40|reflexivity].
Qed.

Lemma charge_color_rank_mono (p1 p2 : Q) :
  p1 <= p2 ->
  (color_rank (charge_color p1) <= color_rank (charge_color p2))%nat.
Proof.
  intro Hle.
  destruct (charge_color_cases p1) as [[A1 ->]|[(A1 & B1 & ->)|[A1 ->]]];
    destruct (charge_color_cases p2) as [[A2 ->]|[(A2 & B2 & ->)|[A2 ->]]];
    cbn; try lia; exfalso.
  - apply (Qlt_not_le _ _ A1). apply Qle_trans with p2; assumption.
  - apply (Qlt_not_le _ _ A1). apply Qle_trans with p2; [exact Hle|].
    apply Qle_trans with 40; [exact A2|discriminate].
  - apply (Qlt_not_le _ _ A1). apply Qle_trans with p2; assumption.
Qed.

Lemma charge_le_of_voltage_le (v1 v2 p1 p2 : Q) (ty : string) :
  v1 <= v2 ->
  calculate_charge_percentage v1 ty = Some p1 ->
  calculate_charge_percentage v2 ty = Some p2 ->
  p1 <= p2.
Proof.
  intros Hle H1 H2.
  destruct (dict_get CELL_SPECS ty) as [spec|] eqn:Hspec;
    [|unfold calculate_charge_percentage in H1; rewrite Hspec in H1; discriminate].
  pose proof (CELL_SPECS_min_lt_max _ _ Hspec) as Hb.
  pose proof (calculate_charge_percentage_range _ _ _ H1) as [R1 R1'].
  pose proof (calculate_charge_percentage_range _ _ _ H2) as [R2 R2'].
  destruct (calculate_charge_percentage_cases v1 _ _ Hspec)
    as [[L1 E1]|[[G1 E1]|(L1 & G1 & E1)]];
    rewrite E1 in H1; injection H1 as <-; [exact R2| |].
  - destruct (calculate_charge_percentage_cases v2 _ _ Hspec)
      as [[L2 E2]|[[G2 E2]|(L2 & G2 & E2)]];
      rewrite E2 in H2; injection H2 as <-; [|apply Qle_refl|]; exfalso.
    + apply (Qlt_not_le _ _ Hb). apply Qle_trans with v1; [exact G1|].
      apply Qle_trans with v2; assumption.
    + apply (Qlt_not_le _ _ G2). apply Qle_trans with v1; assumption.
  - destruct (calculate_charge_percentage_cases v2 _ _ Hspec)
      as [[L2 E2]|[[G2 E2]|(L2 & G2 & E2)]];
      rewrite E2 in H2; injection H2 as <-.
    + exfalso. apply (Qlt_not_le _ _ L1). apply Qle_trans with v2; assumption.
    + exact R1'.
    + apply interpolate_mono; assumption.
Qed.

(** The colour of a cell card never goes down when the voltage goes up
    (red, orange, green); a cell at or below the minimum of its chemistry
    is red and one at or above the maximum is green. *)
Theorem charge_color_of_voltage (v1 v2 p1 p2 : Q) (ty : string) (spec : CellSpec) :
  dict_get CELL_SPECS ty = Some spec ->
  calculate_charge_percentage v1 ty = Some p1 ->
  calculate_charge_percentage v2 ty = Some p2 ->
  (v1 <= v2 ->
   (color_rank (charge_color p1) <= color_rank (charge_color p2))%nat) /\
  (v1 <= spec_min spec -> charge_color p1 = "#F44336") /\
  (spec_max spec <= v1 -> charge_color p1 = "#4CAF50").
Proof.
  intros Hspec H1 H2. pose proof (CELL_SPECS_min_lt_max _ _ Hspec) as Hb.
  split; [|split].
  - intro Hle. apply charge_color_rank_mono.
    eapply charge_le_of_voltage_le; eassumption.
  - intro Hlow.
    destruct (calculate_charge_percentage_cases v1 _ _ Hspec)
      as [[_ E]|[[G E]|(L & _ & E)]].
    + rewrite E in H1. injection H1 as <-. reflexivity.
    + exfalso. apply (Qlt_not_le _ _ Hb). apply Qle_trans with v1; assumption.
    + exfalso. apply (Qlt_not_le _ _ L Hlow).
  - intro Hhigh.
    destruct (calculate_charge_percentage_cases v1 _ _ Hspec)
      as [[L E]|[[_ E]|(_ & G & E)]].
    + exfalso. apply (Qlt_not_le _ _ Hb). apply Qle_trans with v1; assumption.
    + rewrite E in H1. injection H1 as <-. reflexivity.
    + exfalso. apply (Qlt_not_le _ _ G Hhigh).
Qed.

(** An LFP cell at 3.0 V (25 %, red) and at 3.5 V (87.5 %, green). *)
Lemma charge_color_of_voltage_witness :
  dict_get CELL_SPECS "LFP" = Some (mkSpec 3.2 2.8 3.6 "#4CAF50") /\
  calculate_charge_percentage 3.0 "LFP" = Some ((3.0 - 2.8) / (3.6 - 2.8) * 100) /\
  calculate_charge_percentage 3.5 "LFP" = Some ((3.5 - 2.8) / (3.6 - 2.8) * 100) /\
  (3.0 <= 3.5 ->
   (color_rank (charge_color ((3.0 - 2.8) / (3.6 - 2.8) * 100))
    <= color_rank (charge_color ((3.5 - 2.8) / (3.6 - 2.8) * 100)))%nat).
Proof.
  split; [reflexivity|]. split; [reflexivity|]. split; [reflexivity|].
  apply (charge_color_of_voltage 3.0 3.5 _ _ "LFP" (mkSpec 3.2 2.8 3.6 "#4CAF50")
           eq_refl eq_refl eq_refl).
Defined.

Example charge_colors :
  charge_color ((3.0 - 2.8) / (3.6 - 2.8) * 100) = "#F44336" /\
  charge_color ((3.2 - 2.8) / (3.6 - 2.8) * 100) = "#FF9800" /\
  charge_color ((3.5 - 2.8) / (3.6 - 2.8) * 100) = "#4CAF50".
Proof. repeat split. Qed.

(** ** More on the telemetry generator *)

Lemma uniform_value (a b : Q) (g : Rng) :
  uniform a b g =
  (a + (b - a) * stream g (cursor g), mkRng (stream g) (S (cursor g))).
Proof. reflexivity. Qed.

Lemma uniform_range (a b u : Q) :
  a <= b -> 0 <= u /\ u < 1 ->
  a <= a + (b - a) * u /\ a + (b - a) * u <= b.
Proof. intros Hab [H0 H1]. split; nra. Qed.

Lemma perturb_stream (status : ChargingStatus) (cell_data : CellData) (g : Rng) :
  stream (snd (perturb status cell_data g)) = stream g.
Proof. destruct status; reflexivity. Qed.

Lemma py_max_ge (v : Q) : v <= py_max 0 v.
Proof.
  unfold py_max. destruct (Qgtb v 0) eqn:E; tests_to_props.
  - apply Qle_refl.
  - exact E.
Qed.

Lemma py_max_cases (v : Q) : py_max 0 v = v \/ py_max 0 v = 0.
Proof. unfold py_max. destruct (Qgtb v 0); [left|right]; reflexivity. Qed.

Section GeneratorRows.

Variable current_time : Z.
Variable status : ChargingStatus.

(** The loop pairs the cells of the dict, in order, with the data points
    it appends; what relates a cell and the data point the body builds for
    it, under draws of [0, 1), relates them all. *)
Lemma generate_loop_Forall2 (R : string * CellData -> Sample -> Prop) :
  (forall cell_name cell_data g,
      unit_draws g ->
      R (cell_name, cell_data)
        (data_point current_time cell_name cell_data
           (fst (perturb status cell_data g)))) ->
  forall items data_points g,
    unit_draws g ->
    exists new_points,
      fst (generate_loop current_time status items data_points g)
        = data_points ++ new_points /\
      Forall2 R items new_points.
Proof.
  intros Hbody. induction items as [|[cell_name cell_data] rest IH];
    intros data_points g Hg.
  - exists []. split; [symmetry; apply app_nil_r|constructor].
  - cbn [generate_loop]. unfold bind at 1.
    pose proof (Hbody cell_name cell_data g Hg) as Hpoint.
    pose proof (perturb_stream status cell_data g) as Hstream.
    destruct (perturb status cell_data g) as [reading g']. cbn [fst snd] in *.
    destruct (IH (data_points
                    ++ [data_point current_time cell_name cell_data reading]) g')
      as (new & Hrun & Hall).
    { intro n. unfold unit_draws in Hg. rewrite Hstream. apply Hg. }
    eexists. split; [rewrite Hrun, <- app_assoc; reflexivity|].
    constructor; assumption.
Qed.

End GeneratorRows.

Lemma constant_draws (u : Q) (n : nat) :
  0 <= u /\ u < 1 -> unit_draws (mkRng (fun _ => u) n).
Proof. intros H k. exact H. Qed.

Lemma generate_real_time_data_rows_aux (current_time : Z) (ss : Session) (g : Rng) :
  let samples := fst (generate_real_time_data current_time ss g) in
  map cell_id samples = map fst (cells_data ss) /\
  map cell_type samples = map (fun item => type_of (snd item)) (cells_data ss) /\
  Forall (fun s => timestamp s = current_time) samples.
Proof.
  cbv zeta. unfold generate_real_time_data.
  assert (H : forall items acc g0,
             let out := fst (generate_loop current_time (charging_status ss)
                               items acc g0) in
             map cell_id out = map cell_id acc ++ map fst items /\
             map cell_type out =
               map cell_type acc ++ map (fun item => type_of (snd item)) items /\
             (Forall (fun s => timestamp s = current_time) acc ->
              Forall (fun s => timestamp s = current_time) out)).
  { induction items as [|[cell_name cell_data] rest IH]; intros acc g0; cbv zeta.
    - cbn [generate_loop ret fst map]. rewrite !app_nil_r. tauto.
    - cbn [generate_loop]. unfold bind at 1 2 3.
      destruct (perturb (charging_status ss) cell_data g0) as [[[v c] t] g1].
      specialize (IH (acc ++ [data_point current_time cell_name cell_data (v, c, t)]) g1).
      cbv zeta in IH. destruct IH as (H1 & H2 & H3).
      rewrite H1, H2, !map_app. cbn [map fst snd]. rewrite <- !app_assoc.
      split; [reflexivity|]. split; [reflexivity|].
      intro Hacc. apply H3. apply Forall_app. split; [exact Hacc|].
      constructor; [reflexivity|constructor]. }
  destruct (H (cells_data ss) [] g) as (H1 & H2 & H3).
  split; [exact H1|]. split; [exact H2|]. apply H3. constructor.
Qed.

(** [generate_real_time_data] returns one data point per configured cell,
    in the order of the dict, each with the name of its cell, the
    chemistry of its cell (LFP when none is stored) and the time of the
    call. *)
Theorem generate_real_time_data_rows (current_time : Z) (ss : Session) (g : Rng) :
  let samples := fst (generate_real_time_data current_time ss g) in
  map cell_id samples = map fst (cells_data ss) /\
  map cell_type samples = map (fun item => type_of (snd item)) (cells_data ss) /\
  Forall (fun s => timestamp s = current_time) samples.
Proof. apply generate_real_time_data_rows_aux. Qed.

Lemma clamped_in_drift (base lo hi r : Q) :
  lo <= r -> r <= hi ->
  base + lo <= py_max 0 (base + r) /\
  (py_max 0 (base + r) <= base + hi \/ py_max 0 (base + r) = 0).
Proof.
  intros Hlo Hhi. split.
  - apply Qle_trans with (base + r); [lra|apply py_max_ge].
  - destruct (py_max_cases (base + r)) as [-> | ->]; [left; lra|right; reflexivity].
Qed.

Lemma data_point_in_envelope (current_time : Z) (status : ChargingStatus)
    (cell_name : string) (cell_data : CellData) (g : Rng) :
  unit_draws g ->
  in_envelope status cell_data
    (data_point current_time cell_name cell_data
       (fst (perturb status cell_data g))).
Proof.
  intro Hg.
  pose proof (Hg (cursor g)) as H1.
  pose proof (Hg (S (cursor g))) as H2.
  pose proof (Hg (S (S (cursor g)))) as H3.
  set (u1 := stream g (cursor g)) in *.
  set (u2 := stream g (S (cursor g))) in *.
  set (u3 := stream g (S (S (cursor g)))) in *.
  unfold in_envelope.
  destruct status;
    cbn [perturb bind uniform random ret fst snd stream cursor data_point
         voltage current temperature voltage_drift temperature_drift
         current_interval];
    fold u1; fold u2; fold u3.
  - (* Idle *)
    destruct (uniform_range (-0.01) 0.01 u1 ltac:(discriminate) H1).
    destruct (uniform_range (-0.5) 0.5 u2 ltac:(discriminate) H2).
    split; [apply clamped_in_drift; assumption|].
    split; [split; apply Qle_refl|]. split; lra.
  - (* Charging *)
    destruct (uniform_range 0.05 0.15 u1 ltac:(discriminate) H1).
    destruct (uniform_range (-0.5) 0.5 u2 ltac:(discriminate) H2).
    destruct (uniform_range 2 8 u3 ltac:(discriminate) H3).
    split; [apply clamped_in_drift; assumption|].
    split; split; lra.
  - (* Discharging *)
    destruct (uniform_range 0.05 0.15 u1 ltac:(discriminate) H1).
    destruct (uniform_range (-0.5) 0.5 u2 ltac:(discriminate) H2).
    destruct (uniform_range 1 5 u3 ltac:(discriminate) H3).
    split.
    { unfold Qminus. apply clamped_in_drift; lra. }
    split; split; lra.
  - (* Paused *)
    destruct (uniform_range (-0.02) 0.02 u1 ltac:(discriminate) H1).
    destruct (uniform_range (-0.1) 0.1 u2 ltac:(discriminate) H2).
    destruct (uniform_range (-1) 1 u3 ltac:(discriminate) H3).
    split; [apply clamped_in_drift; assumption|].
    split; split; lra.
Qed.

Lemma generate_real_time_data_envelope_aux
    (current_time : Z) (ss : Session) (g : Rng) :
  unit_draws g ->
  Forall2 (fun item s =>
             cell_id s = fst item /\
             in_envelope (charging_status ss) (snd item) s)
          (cells_data ss)
          (fst (generate_real_time_data current_time ss g)).
Proof.
  intro Hg. unfold generate_real_time_data.
  destruct (generate_loop_Forall2 current_time (charging_status ss)
              (fun item s => cell_id s = fst item /\
                             in_envelope (charging_status ss) (snd item) s))
    with (items := cells_data ss) (data_points := @nil Sample) (g := g)
    as (new & Hrun & Hall).
  - intros cell_name cell_data g0 Hg0. split.
    + destruct (fst (perturb (charging_status ss) cell_data g0)) as [[v c] t].
      reflexivity.
    + apply data_point_in_envelope, Hg0.
  - exact Hg.
  - rewrite Hrun. exact Hall.
Qed.

(** The envelope of the generator.  With draws of [0, 1), the data point of
    each configured cell has, in exact arithmetic:
    a voltage at least the configured one plus the lower drift of the
    status and at most the configured one plus the upper drift, unless it
    was clamped to 0 (Charging +0.05..+0.15, Discharging -0.15..-0.05,
    Paused -0.02..+0.02, Idle -0.01..+0.01);
    a current within 0.5 of [|configured|] when Charging, within 0.5 of
    [-|configured|] when Discharging, within 0.1 of 0 when Paused and 0
    when Idle;
    a temperature above the configured one by 2..8 when Charging, 1..5
    when Discharging, -1..1 when Paused and -0.5..0.5 when Idle. *)
Theorem generate_real_time_data_envelope
    (current_time : Z) (ss : Session) (g : Rng) :
  unit_draws g ->
  Forall2 (fun item s =>
             cell_id s = fst item /\
             in_envelope (charging_status ss) (snd item) s)
          (cells_data ss)
          (fst (generate_real_time_data current_time ss g)).
Proof. apply generate_real_time_data_envelope_aux. Qed.

Lemma generate_real_time_data_envelope_witness :
  unit_draws half_draws /\
  Forall2 (fun item s =>
             cell_id s = fst item /\
             in_envelope (charging_status drained_session) (snd item) s)
          (cells_data drained_session)
          (fst (generate_real_time_data 0 drained_session half_draws)).
Proof.
  assert (H : unit_draws half_draws).
  { apply constant_draws. split; [discriminate|reflexivity]. }
  split; [exact H|].
  apply generate_real_time_data_envelope. exact H.
Defined.

(** The derived capacity of a data point is never negative. *)
Theorem generate_real_time_data_capacity_nonneg
    (current_time : Z) (ss : Session) (g : Rng) :
  Forall (fun s => 0 <= capacity s)
         (fst (generate_real_time_data current_time ss g)).
Proof.
  unfold generate_real_time_data.
  apply generate_loop_Forall; [|constructor].
  intros cell_name cell_data g0 _.
  destruct (fst (perturb (charging_status ss) cell_data g0)) as [[v c] t].
  cbn [data_point capacity]. destruct (Qneb c 0).
  - apply Qabs_nonneg.
  - apply Qle_refl.
Qed.

Lemma Forall2_right {A B : Type} (R : A -> B -> Prop) (l : list A) (l' : list B) :
  Forall2 R l l' -> forall b, In b l' -> exists a, In a l /\ R a b.
Proof.
  induction 1 as [|a b l l' Hab _ IH]; intros b0 Hin; [destruct Hin|].
  destruct Hin as [<-|Hin].
  - exists a. split; [left; reflexivity|exact Hab].
  - destruct (IH b0 Hin) as (a0 & Ha0 & HR). exists a0.
    split; [right; exact Ha0|exact HR].
Qed.

Lemma checks_dimensions (spec : CellSpec) (v i t : Q) :
  Forall (fun w => dimension w = DVoltage) (voltage_check spec v) /\
  Forall (fun w => dimension w = DCurrent) (current_check i) /\
  Forall (fun w => dimension w = DTemperature) (temperature_check t).
Proof.
  unfold voltage_check, current_check, temperature_check.
  destruct (Qgtb v (spec_max spec)); [|destruct (Qltb v (spec_min spec))];
    destruct (Qgtb (Qabs i) 10);
    (destruct (Qgtb t 45); [|destruct (Qltb t 0)]);
    repeat split; repeat constructor.
Qed.

(** While the status is Idle or Paused no data point raises a warning
    about the current: the generated current is at most 0.1 A in absolute
    value. *)
Theorem no_current_warning_at_rest
    (current_time : Z) (ss : Session) (g : Rng) (s : Sample)
    (warnings : list Warning) :
  unit_draws g ->
  charging_status ss = Idle \/ charging_status ss = Paused ->
  In s (fst (generate_real_time_data current_time ss g)) ->
  get_safety_warnings (voltage s) (current s) (temperature s) (cell_type s)
    = Some warnings ->
  (Qabs (current s) <= 0.1) /\
  Forall (fun w => dimension w <> DCurrent) warnings.
Proof.
  intros Hg Hstatus Hin Hw.
  pose proof (generate_real_time_data_envelope_aux current_time ss g Hg) as Henv.
  destruct (Forall2_right _ _ _ Henv s Hin) as (item & _ & _ & _ & [Hlo Hhi] & _).
  assert (Hsmall : Qabs (current s) <= 0.1).
  { apply Qabs_Qle_condition.
    destruct Hstatus as [E|E]; rewrite E in Hlo, Hhi;
      cbn [current_interval fst snd] in Hlo, Hhi; split; lra. }
  split; [exact Hsmall|].
  rewrite get_safety_warnings_checks in Hw.
  destruct (dict_get CELL_SPECS (cell_type s)) as [spec|]; [|discriminate].
  injection Hw as <-.
  assert (Hnone : current_check (current s) = []).
  { apply current_check_nil. lra. }
  rewrite Hnone. cbn [app].
  destruct (checks_dimensions spec (voltage s) (current s) (temperature s))
    as (Hv & _ & Ht).
  apply Forall_app. split; eapply Forall_impl; try eassumption;
    cbn beta; intros w E; rewrite E; discriminate.
Qed.

Lemma no_current_warning_at_rest_witness :
  unit_draws half_draws /\
  (charging_status idle_session = Idle \/ charging_status idle_session = Paused) /\
  In idle_point (fst (generate_real_time_data 0 idle_session half_draws)) /\
  get_safety_warnings (voltage idle_point) (current idle_point)
    (temperature idle_point) (cell_type idle_point) = Some [] /\
  Qabs (current idle_point) <= 0.1 /\
  Forall (fun w => dimension w <> DCurrent) (@nil Warning).
Proof.
  assert (H1 : unit_draws half_draws).
  { apply constant_draws. split; [discriminate|reflexivity]. }
  assert (H2 : charging_status idle_session = Idle \/
               charging_status idle_session = Paused) by (left; reflexivity).
  assert (H3 : In idle_point (fst (generate_real_time_data 0 idle_session half_draws)))
    by (left; reflexivity).
  assert (H4 : get_safety_warnings (voltage idle_point) (current idle_point)
                 (temperature idle_point) (cell_type idle_point) = Some [])
    by reflexivity.
  split; [exact H1|]. split; [exact H2|]. split; [exact H3|]. split; [exact H4|].
  exact (no_current_warning_at_rest 0 idle_session half_draws idle_point []
           H1 H2 H3 H4).
Defined.

(** ** The buffer under a fixed configuration *)












(** ** The mock history of the Analysis page *)

Lemma historical_row_stream (timestamp : Z) (cell_name : string)
    (cell_data : CellData) (g : Rng) :
  stream (snd (historical_row timestamp cell_name cell_data g)) = stream g.
Proof. reflexivity. Qed.

Section HistoricalLoops.

(** A property of generators that only looks at the stream of draws. *)
Variable I : Rng -> Prop.
Hypothesis I_stream : forall g g', stream g' = stream g -> I g -> I g'.

(** What relates a time, a cell and the row built for them. *)
Variable R : Z -> string * CellData -> Sample -> Prop.
Hypothesis R_row :
  forall timestamp cell_name cell_data g,
    I g ->
    R timestamp (cell_name, cell_data)
      (fst (historical_row timestamp cell_name cell_data g)).

Lemma historical_cells_spec (timestamp : Z) :
  forall items historical_data g,
    I g ->
    exists rows,
      fst (historical_cells timestamp items historical_data g)
        = historical_data ++ rows /\
      Forall2 (R timestamp) items rows /\
      stream (snd (historical_cells timestamp items historical_data g)) = stream g.
Proof.
  induction items as [|[cell_name cell_data] rest IH]; intros acc g Hg.
  - exists []. split; [symmetry; apply app_nil_r|]. split; [constructor|reflexivity].
  - cbn [historical_cells]. unfold bind.
    pose proof (R_row timestamp cell_name cell_data g Hg) as Hrow.
    pose proof (historical_row_stream timestamp cell_name cell_data g) as Hs.
    destruct (historical_row timestamp cell_name cell_data g) as [row g'].
    cbn [fst snd] in *.
    destruct (IH (acc ++ [row]) g' (I_stream _ _ Hs Hg)) as (rows & Hrun & Hall & Hs').
    exists (row :: rows). split; [rewrite Hrun, <- app_assoc; reflexivity|].
    split; [constructor; assumption|congruence].
Qed.

Lemma historical_minutes_spec (base_time : Z) (items : dict CellData) :
  forall minutes historical_data g,
    I g ->
    exists rows,
      fst (historical_minutes base_time minutes items historical_data g)
        = historical_data ++ rows /\
      Forall2 (fun p row => R (base_time + 60 * Z.of_nat (fst p))%Z (snd p) row)
              (list_prod minutes items) rows.
Proof.
  induction minutes as [|i rest IH]; intros acc g Hg.
  - exists []. split; [symmetry; apply app_nil_r|constructor].
  - cbn [historical_minutes list_prod]. unfold bind at 1.
    destruct (historical_cells_spec (base_time + 60 * Z.of_nat i)%Z items acc g Hg)
      as (rows1 & Hrun1 & Hall1 & Hs1).
    destruct (historical_cells (base_time + 60 * Z.of_nat i)%Z items acc g)
      as [acc1 g1]. cbn [fst snd] in *. subst acc1.
    destruct (IH (acc ++ rows1) g1 (I_stream _ _ Hs1 Hg)) as (rows2 & Hrun2 & Hall2).
    exists (rows1 ++ rows2). split; [rewrite Hrun2, <- app_assoc; reflexivity|].
    apply Forall2_app; [|exact Hall2].
    clear - Hall1. induction Hall1; cbn [map]; constructor; assumption.
Qed.

End HistoricalLoops.

Lemma list_prod_nil_r {A B : Type} (l : list A) : list_prod l (@nil B) = [].
Proof. induction l as [|a l IH]; cbn; [reflexivity|exact IH]. Qed.

Lemma generate_historical_data_Forall2 (I : Rng -> Prop)
    (R : Z -> string * CellData -> Sample -> Prop) :
  (forall g g', stream g' = stream g -> I g -> I g') ->
  (forall timestamp cell_name cell_data g,
      I g ->
      R timestamp (cell_name, cell_data)
        (fst (historical_row timestamp cell_name cell_data g))) ->
  forall now ss g,
    I g ->
    Forall2 (fun p row => R (now - 2 * 3600 + 60 * Z.of_nat (fst p))%Z (snd p) row)
            (list_prod (seq 0 120) (cells_data ss))
            (fst (generate_historical_data now ss g)).
Proof.
  intros HI HR now ss g Hg. unfold generate_historical_data.
  destruct (cells_data ss) as [|cell rest] eqn:Hcells.
  - rewrite list_prod_nil_r. constructor.
  - rewrite <- Hcells.
    destruct (historical_minutes_spec I HI R HR (now - 2 * 3600)%Z (cells_data ss)
                (seq 0 120) [] g Hg) as (rows & Hrun & Hall).
    rewrite Hrun. exact Hall.
Qed.

Lemma Forall2_length_eq {A B : Type} (R : A -> B -> Prop) (l : list A) (l' : list B) :
  Forall2 R l l' -> List.length l' = List.length l.
Proof. induction 1; cbn; congruence. Qed.

Lemma generate_historical_data_rows_aux (now : Z) (ss : Session) (g : Rng) :
  Forall2 (history_row now)
          (list_prod (seq 0 120) (cells_data ss))
          (fst (generate_historical_data now ss g)).
Proof.
  apply (generate_historical_data_Forall2 (fun _ => True)
           (fun ts item row =>
              timestamp row = ts /\ cell_id row = fst item /\
              cell_type row = type_of (snd item) /\
              0 <= voltage row /\ 0 <= capacity row)).
  - intros; exact Logic.I.
  - intros ts cell_name cell_data g0 _.
    cbn [historical_row bind uniform random ret fst snd timestamp cell_id
         cell_type voltage capacity].
    do 3 (split; [reflexivity|]). split; [apply py_max_nonneg|apply Qabs_nonneg].
  - exact Logic.I.
Qed.

(** The mock history has one row per minute and configured cell, for the
    120 minutes that start two hours before the call, minute by minute and
    within a minute in the order of the dict; each row carries the name
    and the chemistry of its cell, a voltage [>= 0] and a capacity
    [>= 0].  So it has [120 * (number of cells)] rows, none without a
    cell. *)
Theorem generate_historical_data_rows (now : Z) (ss : Session) (g : Rng) :
  Forall2 (history_row now)
          (list_prod (seq 0 120) (cells_data ss))
          (fst (generate_historical_data now ss g)) /\
  List.length (fst (generate_historical_data now ss g))
    = (120 * List.length (cells_data ss))%nat.
Proof.
  pose proof (generate_historical_data_rows_aux now ss g) as H.
  split; [exact H|].
  rewrite (Forall2_length_eq _ _ _ H), length_prod, length_seq. reflexivity.
Qed.

Lemma unit_draws_stream (g g' : Rng) :
  stream g' = stream g -> unit_draws g -> unit_draws g'.
Proof. intros Hs Hg n. rewrite Hs. apply Hg. Qed.

(** With draws of [0, 1) every row of the history stays, in exact
    arithmetic, within 0.2 V of the configured voltage unless clamped to 0,
    within 1 A of the configured current and between 5 degrees below and
    15 degrees above the configured temperature; its capacity is
    [|voltage * current|] of the row unless the voltage was clamped. *)
Theorem generate_historical_data_envelope (now : Z) (ss : Session) (g : Rng) :
  unit_draws g ->
  Forall2 (fun p row =>
             cell_id row = fst (snd p) /\ history_envelope (snd (snd p)) row)
          (list_prod (seq 0 120) (cells_data ss))
          (fst (generate_historical_data now ss g)).
Proof.
  intro Hg.
  apply (generate_historical_data_Forall2 unit_draws
           (fun _ item row =>
              cell_id row = fst item /\ history_envelope (snd item) row));
    [exact unit_draws_stream| |exact Hg].
  intros ts cell_name cell_data g0 Hg0.
  pose proof (Hg0 (cursor g0)) as H1.
  pose proof (Hg0 (S (cursor g0))) as H2.
  pose proof (Hg0 (S (S (cursor g0)))) as H3.
  set (u1 := stream g0 (cursor g0)) in *.
  set (u2 := stream g0 (S (cursor g0))) in *.
  set (u3 := stream g0 (S (S (cursor g0)))) in *.
  unfold history_envelope.
  cbn [historical_row bind uniform random ret fst snd stream cursor
       cell_id voltage current temperature capacity].
  fold u1; fold u2; fold u3.
  destruct (uniform_range (-0.2) 0.2 u1 ltac:(discriminate) H1).
  destruct (uniform_range (-1) 1 u2 ltac:(discriminate) H2).
  destruct (uniform_range (-5) 15 u3 ltac:(discriminate) H3).
  split; [reflexivity|].
  split.
  { destruct (clamped_in_drift (cd_voltage cell_data) (-0.2) 0.2
                (-0.2 + (0.2 - -0.2) * u1)) as [Hlo Hhi]; try assumption.
    split; [lra|exact Hhi]. }
  split; [split; lra|]. split; [split; lra|].
  destruct (py_max_cases (cd_voltage cell_data + (-0.2 + (0.2 - -0.2) * u1)))
    as [-> | ->]; [left; reflexivity|right; reflexivity].
Qed.

Lemma generate_historical_data_envelope_witness :
  unit_draws half_draws /\
  Forall2 (fun p row =>
             cell_id row = fst (snd p) /\ history_envelope (snd (snd p)) row)
          (list_prod (seq 0 120) (cells_data idle_session))
          (fst (generate_historical_data 7200 idle_session half_draws)).
Proof.
  assert (H : unit_draws half_draws).
  { apply constant_draws. split; [discriminate|reflexivity]. }
  split; [exact H|].
  apply generate_historical_data_envelope. exact H.
Defined.

(** Once a history exists it is kept: as soon as a cell is configured the
    first visit of the Analysis page generates [120 * cells > 0] rows, and
    no later visit, at any time, with any configuration, replaces them or
    draws a random number. *)
Theorem historical_data_of_kept (now : Z) (ss : Session) (g : Rng) :
  (0 < List.length (cells_data ss))%nat ->
  let history := fst (historical_data_of now ss [] g) in
  List.length history = (120 * List.length (cells_data ss))%nat /\
  forall now' ss' g', historical_data_of now' ss' history g' = (history, g').
Proof.
  intro Hn. cbv zeta. cbn [historical_data_of].
  pose proof (generate_historical_data_rows_aux now ss g) as H.
  apply Forall2_length_eq in H. rewrite length_prod, length_seq in H.
  split; [exact H|].
  intros now' ss' g'.
  destruct (fst (generate_historical_data now ss g)) as [|row rows].
  - cbn in H. lia.
  - reflexivity.
Qed.

Lemma historical_data_of_kept_witness :
  (0 < List.length (cells_data idle_session))%nat /\
  List.length (fst (historical_data_of 7200 idle_session [] half_draws))
    = (120 * 1)%nat.
Proof.
  split; [cbn; lia|].
  destruct (historical_data_of_kept 7200 idle_session half_draws) as [H _];
    [cbn; lia|exact H].
Defined.

(** ** The safety analysis of a table of samples *)

Lemma safety_score_of_count (n : nat) :
  (n <= 3)%nat -> In (safety_score n) [25; 50; 75; 100]%Z.
Proof.
  intro H.
  assert (Hn : (n = 0 \/ n = 1 \/ n = 2 \/ n = 3)%nat) by lia.
  destruct Hn as [-> | [-> | [-> | ->]]]; cbn; tauto.
Qed.

Lemma safety_data_shape (df : list Sample) (rows : list SafetyRow) :
  safety_data df = Some rows ->
  map row_cell_id rows = map cell_id df /\
  map row_timestamp rows = map timestamp df.
Proof.
  revert rows. induction df as [|row df IH]; intros rows; cbn [safety_data].
  - intros [= <-]. split; reflexivity.
  - destruct (get_safety_warnings _ _ _ _); [|discriminate].
    destruct (safety_data df) as [out|]; [|discriminate].
    intros [= <-]. destruct (IH out eq_refl) as [H1 H2].
    cbn [map row_cell_id row_timestamp]. rewrite H1, H2. split; reflexivity.
Qed.

Lemma safety_data_None (df : list Sample) :
  safety_data df = None <->
  Exists (fun s => dict_get CELL_SPECS (cell_type s) = None) df.
Proof.
  induction df as [|row df IH]; cbn [safety_data].
  - split; [discriminate|]. intro H. inversion H.
  - rewrite get_safety_warnings_checks.
    destruct (dict_get CELL_SPECS (cell_type row)) as [spec|] eqn:Hspec.
    + destruct (safety_data df) as [out|].
      * split; [discriminate|]. intro H. inversion H as [? ? H0|? ? H0]; subst.
        -- congruence.
        -- apply IH in H0. discriminate.
      * split; [|reflexivity]. intros _. apply Exists_cons_tl, IH. reflexivity.
    + split; [|reflexivity]. intros _. apply Exists_cons_hd. exact Hspec.
Qed.


(** The safety analysis of the history of a configuration whose
    chemistries are options of the select box does not raise and scores
    each of the [120 * cells] rows. *)
Theorem safety_data_of_history (now : Z) (ss : Session) (g : Rng) :
  known_types (cells_data ss) ->
  exists rows,
    safety_data (fst (generate_historical_data now ss g)) = Some rows /\
    List.length rows = (120 * List.length (cells_data ss))%nat /\
    Forall (fun r => In (row_safety_score r) [25; 50; 75; 100]%Z) rows.
Proof.
  intro Hk.
  pose proof (generate_historical_data_rows_aux now ss g) as Hrows.
  destruct (safety_data (fst (generate_historical_data now ss g)))
    as [rows|] eqn:Hs.
  - exists rows. split; [reflexivity|].
    destruct (safety_data_shape _ _ Hs) as [H1 _].
    split.
    + rewrite <- (length_map row_cell_id), H1, length_map.
      rewrite (Forall2_length_eq _ _ _ Hrows), length_prod, length_seq.
      reflexivity.
    + eapply Forall_impl; [|apply (safety_data_rows _ _ Hs)].
      cbn beta. intros r [Hscore Hcount]. rewrite Hscore.
      apply safety_score_of_count, Hcount.
  - exfalso. apply safety_data_None in Hs. apply Exists_exists in Hs.
    destruct Hs as (s & Hin & Hnone).
    destruct (Forall2_right _ _ _ Hrows s Hin)
      as ([i item] & Hp & _ & _ & Hty & _).
    apply in_prod_iff in Hp. destruct Hp as [_ Hp]. cbn [snd] in Hty.
    unfold known_types in Hk. rewrite Forall_forall in Hk.
    specialize (Hk _ Hp). apply cell_type_options_table in Hk.
    destruct Hk as [spec Hspec]. congruence.
Qed.

Lemma safety_data_of_history_witness :
  known_types (cells_data idle_session) /\
  exists rows,
    safety_data (fst (generate_historical_data 7200 idle_session half_draws))
      = Some rows /\
    List.length rows = (120 * 1)%nat.
Proof.
  assert (H : known_types (cells_data idle_session)).
  { repeat constructor. }
  split; [exact H|].
  destruct (safety_data_of_history 7200 idle_session half_draws H)
    as (rows & Hrun & Hlen & _).
  exists rows. split; [exact Hrun|exact Hlen].
Defined.

(** ** More on the evaluator and the estimator *)

(** A reading raises a CRITICAL warning exactly when its voltage is above
    the maximum of its chemistry or its temperature above 45 degrees; a
    high current, an undervoltage and a low temperature are WARNINGs. *)
Theorem get_safety_warnings_critical
    (v i t : Q) (cell_type : string) (spec : CellSpec) (warnings : list Warning) :
  dict_get CELL_SPECS cell_type = Some spec ->
  get_safety_warnings v i t cell_type = Some warnings ->
  (Exists (fun w => fst w = CRITICAL) warnings <-> spec_max spec < v \/ 45 < t).
Proof.
  intros Hspec. rewrite get_safety_warnings_checks, Hspec. intros [= <-].
  unfold voltage_check, current_check, temperature_check.
  destruct (Qgtb v (spec_max spec)) eqn:Hover;
    [|destruct (Qltb v (spec_min spec)) eqn:Hunder];
    destruct (Qgtb (Qabs i) 10) eqn:Hhigh;
    (destruct (Qgtb t 45) eqn:Hhot; [|destruct (Qltb t 0) eqn:Hcold]);
    tests_to_props; cbn [app]; split; intro H;
    try (left; assumption); try (right; assumption);
    try (apply Exists_cons_hd; reflexivity);
    try (apply Exists_cons_tl, Exists_cons_hd; reflexivity);
    try (apply Exists_cons_tl, Exists_cons_tl, Exists_cons_hd; reflexivity);
    try (exfalso; destruct H as [H|H]; absurd_order);
    repeat match goal with
    | H : Exists _ (_ :: _) |- _ => inversion H; clear H; subst
    | H : Exists _ [] |- _ => inversion H
    | H : fst (_, _) = CRITICAL |- _ => cbn in H; try discriminate H; clear H
    end.
Qed.

Lemma get_safety_warnings_critical_witness :
  dict_get CELL_SPECS "LFP" = Some (mkSpec 3.2 2.8 3.6 "#4CAF50") /\
  get_safety_warnings 3.7 2 20 "LFP" = Some [(CRITICAL, Overvoltage 3.7 3.6)] /\
  (Exists (fun w => fst w = CRITICAL) [(CRITICAL, Overvoltage 3.7 3.6)]
   <-> 3.6 < 3.7 \/ 45 < 20).
Proof.
  split; [reflexivity|]. split; [reflexivity|].
  exact (get_safety_warnings_critical 3.7 2 20 "LFP"
           (mkSpec 3.2 2.8 3.6 "#4CAF50") _ eq_refl eq_refl).
Defined.

(** For every chemistry of [CELL_SPECS] the nominal voltage lies strictly
    within the bounds: a reading at the nominal voltage raises no warning
    about the voltage, whatever its current and temperature are, and the
    nominal voltage is estimated strictly between 0 and 100 percent, which
    gives an orange card. *)
Theorem nominal_voltage_safe
    (cell_type : string) (spec : CellSpec) (i t : Q) (warnings : list Warning) :
  dict_get CELL_SPECS cell_type = Some spec ->
  get_safety_warnings (spec_nominal spec) i t cell_type = Some warnings ->
  Forall (fun w => dimension w <> DVoltage) warnings /\
  exists p,
    calculate_charge_percentage (spec_nominal spec) cell_type = Some p /\
    0 < p /\ p < 100 /\
    charge_color p = "#FF9800".
Proof.
  intros Hspec Hw. split.
  - rewrite get_safety_warnings_checks, Hspec in Hw. injection Hw as <-.
    destruct (CELL_SPECS_bounds _ _ Hspec) as [Hlo Hhi].
    assert (Hnone : voltage_check spec (spec_nominal spec) = []).
    { apply voltage_check_nil. split; apply Qlt_le_weak; assumption. }
    rewrite Hnone. cbn [app].
    destruct (checks_dimensions spec (spec_nominal spec) i t) as (_ & Hi & Ht).
    apply Forall_app. split; eapply Forall_impl; try eassumption;
      cbn beta; intros w E; rewrite E; discriminate.
  - apply CELL_SPECS_cases in Hspec.
    destruct Hspec as [[-> ->]|[[-> ->]|[-> ->]]];
      eexists; (split; [reflexivity|]); repeat split.
Qed.

(** An LTO cell at its nominal 2.4 V, too hot and drawing too much: the
    two warnings are about the current and the temperature. *)
Lemma nominal_voltage_safe_witness :
  dict_get CELL_SPECS "LTO" = Some (mkSpec 2.4 1.8 2.8 "#FF9800") /\
  get_safety_warnings 2.4 12 50 "LTO" =
    Some [(WARNING, HighCurrent (Qabs 12)); (CRITICAL, Overheating 50)] /\
  Forall (fun w => dimension w <> DVoltage)
    [(WARNING, HighCurrent (Qabs 12)); (CRITICAL, Overheating 50)].
Proof.
  split; [reflexivity|]. split; [reflexivity|].
  exact (proj1 (nominal_voltage_safe "LTO" (mkSpec 2.4 1.8 2.8 "#FF9800") 12 50
                  _ eq_refl eq_refl)).
Defined.

(** ** The buttons of the Control Panel *)

Lemma last_In {A : Type} (l : list A) (d : A) : l <> [] -> In (last l d) l.
Proof.
  induction l as [|a l IH]; intro H; [contradiction|].
  destruct l as [|b l]; [left; reflexivity|].
  right. apply IH. discriminate.
Qed.

(** Presses of the four buttons, in any order and number, leave the
    configured cells, the real-time buffer and the random generator as
    they are (Stop does not clear the buffer); the status is the one of the
    last button pressed, whatever the status was before, and the old one
    when no button is pressed. *)
Theorem buttons_only_set_status (events : list Event) (ss : Session) (g : Rng) :
  Forall (fun e => is_button e = true) events ->
  run events ss g =
  ({| cells_data := cells_data ss;
      charging_status :=
        status_of_button (last events (ControlPanel 0)) (charging_status ss);
      real_time_data := real_time_data ss |}, g).
Proof.
  intro Hev. revert ss.
  induction Hev as [|e rest He Hrest IH]; intro ss.
  - destruct ss. reflexivity.
  - cbn [run]. unfold bind.
    assert (Hstep : handle e ss g
                    = (set_status (status_of_button e (charging_status ss)) ss, g)).
    { destruct e; try discriminate He; reflexivity. }
    rewrite Hstep, IH. cbn [set_status cells_data charging_status real_time_data].
    destruct rest as [|e' rest']; [reflexivity|].
    change (last (e :: e' :: rest') (ControlPanel 0))
      with (last (e' :: rest') (ControlPanel 0)).
    assert (Hb : is_button (last (e' :: rest') (ControlPanel 0)) = true).
    { rewrite Forall_forall in Hrest. apply Hrest. apply last_In. discriminate. }
    destruct (last (e' :: rest') (ControlPanel 0)); try discriminate Hb; reflexivity.
Qed.

Lemma buttons_only_set_status_witness :
  Forall (fun e => is_button e = true) [StartCharging; Pause; Stop; StartDischarging] /\
  charging_status
    (fst (run [StartCharging; Pause; Stop; StartDischarging] full_session half_draws))
  = Discharging /\
  real_time_data
    (fst (run [StartCharging; Pause; Stop; StartDischarging] full_session half_draws))
  = real_time_data full_session.
Proof.
  assert (H : Forall (fun e => is_button e = true)
                [StartCharging; Pause; Stop; StartDischarging])
    by (repeat constructor).
  split; [exact H|].
  rewrite (buttons_only_set_status _ full_session half_draws H).
  split; reflexivity.
Defined.

(** A save of two cells, a press of "Start Charging" and two renderings
    of the Control Panel, from the first page load. *)
Lemma run_control_panel_bounded_witness :
  Forall well_formed_event
    [SaveConfiguration
       [("Cell_1", mkCell (Some "LFP") 3.2 2 25 1 6.4);
        ("Cell_2", mkCell (Some "NMC") 3.6 2 25 1 7.2)];
     StartCharging; ControlPanel 1] /\
  (List.length
     (real_time_data
        (fst (run ([SaveConfiguration
                      [("Cell_1", mkCell (Some "LFP") 3.2 2 25 1 6.4);
                       ("Cell_2", mkCell (Some "NMC") 3.6 2 25 1 7.2)];
                    StartCharging; ControlPanel 1] ++ [ControlPanel 2])
                initial_session half_draws)))
   <= 60 * 2)%nat.
Proof.
  assert (H : Forall well_formed_event
                [SaveConfiguration
                   [("Cell_1", mkCell (Some "LFP") 3.2 2 25 1 6.4);
                    ("Cell_2", mkCell (Some "NMC") 3.6 2 25 1 7.2)];
                 StartCharging; ControlPanel 1]).
  { repeat constructor. discriminate. }
  split; [exact H|].
  exact (run_control_panel_bounded _ 2 half_draws H).
Defined.
